(** * OpenGLSimpleTriangle: the call sequence of [Source.cpp]

    [Source.cpp] is one procedural [main] that sequences calls into two
    native libraries (GLFW for the window, the context and the input; the
    OpenGL driver, loaded through GLAD, for the drawing), plus two small
    functions, [framebuffer_size_callback] and [processInput].

    The embedding keeps the program as it is written: every library call
    is an action of a small monad that records the call, with its
    arguments, in a trace.  What the libraries answer (the created window,
    the object names the driver hands out, compile and link status, the
    info logs, the key state and the window events of each frame) is not
    computed by the program: it is read from an environment [Env], over
    which every theorem quantifies.  The render loop may run for ever, so
    it takes a fuel argument that bounds the number of times the loop
    condition is evaluated. *)

From Stdlib Require Import ZArith NArith QArith String Ascii List Bool Arith Lia.
Import ListNotations.

Close Scope Q_scope.
Local Open Scope string_scope.
Local Open Scope list_scope.

(** ** Values exchanged with the libraries *)

(** [unsigned int] object names of the driver. *)
Definition GLuint : Type := N.
Bind Scope N_scope with GLuint.

(** A non-null [GLFWwindow*]; the null pointer is [None] where a pointer
    may be null. *)
Definition GLFWwindow : Type := N.
Bind Scope N_scope with GLFWwindow.

(** [float] literals are kept as the decimal numbers written in the
    source; the program performs no arithmetic on them. *)
Definition GLfloat : Type := Q.
Bind Scope Q_scope with GLfloat.

(** The macros of [glfw3.h] and [glad.h] that the program names.  The
    headers are not part of the repository, so the macros stay symbolic. *)
Inductive GlfwHint : Type :=
| GLFW_CONTEXT_VERSION_MAJOR
| GLFW_CONTEXT_VERSION_MINOR
| GLFW_OPENGL_PROFILE.

(** The [int value] argument of [glfwWindowHint]: an integer literal or the
    profile macro. *)
Inductive HintValue : Type :=
| HintInt (v : Z)
| GLFW_OPENGL_CORE_PROFILE.

Inductive GlfwKey : Type :=
| GLFW_KEY_ESCAPE.

Inductive KeyAction : Type :=
| GLFW_RELEASE
| GLFW_PRESS
| GLFW_REPEAT.

Inductive GLenum : Type :=
| GL_VERTEX_SHADER
| GL_FRAGMENT_SHADER
| GL_COMPILE_STATUS
| GL_LINK_STATUS
| GL_ARRAY_BUFFER
| GL_STATIC_DRAW
| GL_FLOAT
| GL_TRIANGLES.

Inductive GLbitfield : Type :=
| GL_COLOR_BUFFER_BIT.

(** Functions of the program whose address is handed to a library. *)
Inductive FnPtr : Type :=
| fn_framebuffer_size_callback.

(** What [glfwPollEvents] can find in the event queue of the window. *)
Inductive Event : Type :=
| FramebufferResized (width height : Z)
| CloseRequested
| OtherEvent.

(** ** Library calls

    One constructor per library function the program calls, with the
    arguments of the call.  An argument that is always [NULL] in the
    source is left out, and so is the loader handed to
    [gladLoadGLLoader], which is always [glfwGetProcAddress].  [&VAO] and
    [&VBO] passed to a delete function are recorded as the values read
    through the pointer; passed to a generate function they are outputs,
    answered by the environment.  [Cout s] is [std::cout << s], [Endl] is
    [<< std::endl]. *)
Inductive Call : Type :=
| GlfwInit
| GlfwWindowHint (hint : GlfwHint) (value : HintValue)
| GlfwCreateWindow (width height : Z) (title : string)
| GlfwTerminate
| GlfwMakeContextCurrent (window : GLFWwindow)
| GlfwSetFramebufferSizeCallback (window : GLFWwindow) (callback : FnPtr)
| GladLoadGLLoader
| GlCreateShader (type : GLenum)
| GlShaderSource (shader : GLuint) (count : Z) (source : string)
| GlCompileShader (shader : GLuint)
| GlGetShaderiv (shader : GLuint) (pname : GLenum)
| GlGetShaderInfoLog (shader : GLuint) (maxLength : Z)
| GlCreateProgram
| GlAttachShader (program shader : GLuint)
| GlLinkProgram (program : GLuint)
| GlGetProgramiv (program : GLuint) (pname : GLenum)
| GlGetProgramInfoLog (program : GLuint) (maxLength : Z)
| GlUseProgram (program : GLuint)
| GlDeleteShader (shader : GLuint)
| GlGenBuffers (n : Z)
| GlBindBuffer (target : GLenum) (buffer : GLuint)
| GlBufferData (target : GLenum) (size : Z) (data : list GLfloat) (usage : GLenum)
| GlGenVertexArrays (n : Z)
| GlBindVertexArray (array : GLuint)
| GlVertexAttribPointer (index : GLuint) (size : Z) (type : GLenum)
                        (normalized : bool) (stride : Z) (pointer : Z)
| GlEnableVertexAttribArray (index : GLuint)
| GlfwWindowShouldClose (window : GLFWwindow)
| GlfwGetKey (window : GLFWwindow) (key : GlfwKey)
| GlfwSetWindowShouldClose (window : GLFWwindow) (value : bool)
| GlClearColor (red green blue alpha : GLfloat)
| GlClear (mask : GLbitfield)
| GlDrawArrays (mode : GLenum) (first count : Z)
| GlfwSwapBuffers (window : GLFWwindow)
| GlfwPollEvents
| GlViewport (x y width height : Z)
| GlDeleteVertexArrays (n : Z) (arrays : list GLuint)
| GlDeleteBuffers (n : Z) (buffers : list GLuint)
| GlDeleteProgram (program : GLuint)
| Cout (s : string)
| Endl.

(** ** The environment: what the libraries answer

    One field per call site whose result the program reads.  The two
    per-frame fields are indexed by the number of earlier calls of the
    same function. *)
Record Env : Type := mkEnv {
  env_init : bool;                        (* glfwInit() *)
  env_window : option GLFWwindow;         (* glfwCreateWindow(...) *)
  env_glad : Z;                           (* gladLoadGLLoader(...) *)
  env_vertexShader : GLuint;              (* glCreateShader(GL_VERTEX_SHADER) *)
  env_vertexStatus : Z;                   (* success after glGetShaderiv *)
  env_vertexLog : string;                 (* infoLog after glGetShaderInfoLog *)
  env_fragmentShader : GLuint;            (* glCreateShader(GL_FRAGMENT_SHADER) *)
  env_fragmentStatus : Z;
  env_fragmentLog : string;
  env_shaderProgram : GLuint;             (* glCreateProgram() *)
  env_linkStatus : Z;                     (* success after glGetProgramiv *)
  env_programLog : string;                (* infoLog after glGetProgramInfoLog *)
  env_VBO : GLuint;                       (* VBO after glGenBuffers *)
  env_VAO : GLuint;                       (* VAO after glGenVertexArrays *)
  env_key : nat -> KeyAction;             (* the n-th glfwGetKey *)
  env_events : nat -> list Event          (* queue found by the n-th glfwPollEvents *)
}.

(** ** The state of the windowing library that the program depends on *)
Record Glfw : Type := mkGlfw {
  glfw_live : bool;                           (* initialised and not terminated *)
  should_close : bool;                        (* close flag of the window *)
  fbsize_callback : option (GLFWwindow * FnPtr);  (* registered resize callback *)
  key_calls : nat;                            (* glfwGetKey calls so far *)
  poll_calls : nat                            (* glfwPollEvents calls so far *)
}.

Definition glfw_start : Glfw :=
  {| glfw_live := false; should_close := false; fbsize_callback := None;
     key_calls := 0; poll_calls := 0 |}.

Definition set_live (b : bool) (s : Glfw) : Glfw :=
  {| glfw_live := b; should_close := should_close s;
     fbsize_callback := fbsize_callback s;
     key_calls := key_calls s; poll_calls := poll_calls s |}.

Definition set_should_close (b : bool) (s : Glfw) : Glfw :=
  {| glfw_live := glfw_live s; should_close := b;
     fbsize_callback := fbsize_callback s;
     key_calls := key_calls s; poll_calls := poll_calls s |}.

Definition set_fbsize_callback (w : GLFWwindow) (f : FnPtr) (s : Glfw) : Glfw :=
  {| glfw_live := glfw_live s; should_close := should_close s;
     fbsize_callback := Some (w, f);
     key_calls := key_calls s; poll_calls := poll_calls s |}.

Definition count_key_call (s : Glfw) : Glfw :=
  {| glfw_live := glfw_live s; should_close := should_close s;
     fbsize_callback := fbsize_callback s;
     key_calls := S (key_calls s); poll_calls := poll_calls s |}.

Definition count_poll_call (s : Glfw) : Glfw :=
  {| glfw_live := glfw_live s; should_close := should_close s;
     fbsize_callback := fbsize_callback s;
     key_calls := key_calls s; poll_calls := S (poll_calls s) |}.

(** ** The monad of the program

    An action reads the environment, updates the library state and
    appends to the trace.  Its result is [None] when the fuel of the
    render loop ran out before it finished. *)
Definition M (A : Type) : Type := Env -> Glfw -> option A * Glfw * list Call.

Definition ret {A : Type} (a : A) : M A :=
  fun _ s => (Some a, s, []).

Definition bind {A B : Type} (m : M A) (k : A -> M B) : M B :=
  fun e s =>
    match m e s with
    | (Some a, s1, t1) =>
        match k a e s1 with
        | (r, s2, t2) => (r, s2, t1 ++ t2)
        end
    | (None, s1, t1) => (None, s1, t1)
    end.

Declare Scope prog_scope.
Delimit Scope prog_scope with prog.
Notation "x <- m ;; k" := (bind m (fun x => k))
  (at level 61, m at next level, right associativity) : prog_scope.
Notation "m ;; k" := (bind m (fun _ => k))
  (at level 61, right associativity) : prog_scope.
Local Open Scope prog_scope.

Definition call (c : Call) : M unit := fun _ s => (Some tt, s, [c]).
Definition ask {A : Type} (f : Env -> A) : M A := fun e s => (Some (f e), s, []).
Definition get : M Glfw := fun _ s => (Some s, s, []).
Definition modify (f : Glfw -> Glfw) : M unit := fun _ s => (Some tt, f s, []).
Definition out_of_fuel {A : Type} : M A := fun _ s => (None, s, []).

Definition result {A : Type} (r : option A * Glfw * list Call) : option A := fst (fst r).
Definition final {A : Type} (r : option A * Glfw * list Call) : Glfw := snd (fst r).
Definition trace {A : Type} (r : option A * Glfw * list Call) : list Call := snd r.

(** ** The library functions, as actions *)

Module Lib.

Definition glfwInit : M bool :=
  call GlfwInit ;;
  ok <- ask env_init ;;
  modify (set_live ok) ;;
  ret ok.

Definition glfwWindowHint (hint : GlfwHint) (value : HintValue) : M unit :=
  call (GlfwWindowHint hint value).

Definition glfwCreateWindow (width height : Z) (title : string)
  : M (option GLFWwindow) :=
  call (GlfwCreateWindow width height title) ;;
  ask env_window.

Definition glfwTerminate : M unit :=
  call GlfwTerminate ;;
  modify (set_live false).

Definition glfwMakeContextCurrent (window : GLFWwindow) : M unit :=
  call (GlfwMakeContextCurrent window).

Definition glfwSetFramebufferSizeCallback (window : GLFWwindow) (f : FnPtr)
  : M unit :=
  call (GlfwSetFramebufferSizeCallback window f) ;;
  modify (set_fbsize_callback window f).

Definition gladLoadGLLoader : M Z :=
  call GladLoadGLLoader ;;
  ask env_glad.

Definition glfwWindowShouldClose (window : GLFWwindow) : M bool :=
  call (GlfwWindowShouldClose window) ;;
  s <- get ;;
  ret (should_close s).

Definition glfwSetWindowShouldClose (window : GLFWwindow) (value : bool)
  : M unit :=
  call (GlfwSetWindowShouldClose window value) ;;
  modify (set_should_close value).

Definition glfwGetKey (window : GLFWwindow) (key : GlfwKey) : M KeyAction :=
  call (GlfwGetKey window key) ;;
  s <- get ;;
  a <- ask (fun e => env_key e (key_calls s)) ;;
  modify count_key_call ;;
  ret a.

Definition glfwSwapBuffers (window : GLFWwindow) : M unit :=
  call (GlfwSwapBuffers window).

Definition glCreateShader (type : GLenum) (answer : Env -> GLuint) : M GLuint :=
  call (GlCreateShader type) ;;
  ask answer.

Definition glShaderSource (shader : GLuint) (count : Z) (source : string)
  : M unit :=
  call (GlShaderSource shader count source).

Definition glCompileShader (shader : GLuint) : M unit :=
  call (GlCompileShader shader).

Definition glGetShaderiv (shader : GLuint) (pname : GLenum) (answer : Env -> Z)
  : M Z :=
  call (GlGetShaderiv shader pname) ;;
  ask answer.

Definition glGetShaderInfoLog (shader : GLuint) (maxLength : Z)
  (answer : Env -> string) : M string :=
  call (GlGetShaderInfoLog shader maxLength) ;;
  ask answer.

Definition glCreateProgram : M GLuint :=
  call GlCreateProgram ;;
  ask env_shaderProgram.

Definition glAttachShader (program shader : GLuint) : M unit :=
  call (GlAttachShader program shader).

Definition glLinkProgram (program : GLuint) : M unit :=
  call (GlLinkProgram program).

Definition glGetProgramiv (program : GLuint) (pname : GLenum) : M Z :=
  call (GlGetProgramiv program pname) ;;
  ask env_linkStatus.

Definition glGetProgramInfoLog (program : GLuint) (maxLength : Z) : M string :=
  call (GlGetProgramInfoLog program maxLength) ;;
  ask env_programLog.

Definition glUseProgram (program : GLuint) : M unit :=
  call (GlUseProgram program).

Definition glDeleteShader (shader : GLuint) : M unit :=
  call (GlDeleteShader shader).

Definition glGenBuffers (n : Z) : M GLuint :=
  call (GlGenBuffers n) ;;
  ask env_VBO.

Definition glBindBuffer (target : GLenum) (buffer : GLuint) : M unit :=
  call (GlBindBuffer target buffer).

Definition glBufferData (target : GLenum) (size : Z) (data : list GLfloat)
  (usage : GLenum) : M unit :=
  call (GlBufferData target size data usage).

Definition glGenVertexArrays (n : Z) : M GLuint :=
  call (GlGenVertexArrays n) ;;
  ask env_VAO.

Definition glBindVertexArray (array : GLuint) : M unit :=
  call (GlBindVertexArray array).

Definition glVertexAttribPointer (index : GLuint) (size : Z) (type : GLenum)
  (normalized : bool) (stride : Z) (pointer : Z) : M unit :=
  call (GlVertexAttribPointer index size type normalized stride pointer).

Definition glEnableVertexAttribArray (index : GLuint) : M unit :=
  call (GlEnableVertexAttribArray index).

Definition glClearColor (red green blue alpha : GLfloat) : M unit :=
  call (GlClearColor red green blue alpha).

Definition glClear (mask : GLbitfield) : M unit :=
  call (GlClear mask).

Definition glDrawArrays (mode : GLenum) (first count : Z) : M unit :=
  call (GlDrawArrays mode first count).

Definition glViewport (x y width height : Z) : M unit :=
  call (GlViewport x y width height).

Definition glDeleteVertexArrays (n : Z) (arrays : list GLuint) : M unit :=
  call (GlDeleteVertexArrays n arrays).

Definition glDeleteBuffers (n : Z) (buffers : list GLuint) : M unit :=
  call (GlDeleteBuffers n buffers).

Definition glDeleteProgram (program : GLuint) : M unit :=
  call (GlDeleteProgram program).

Definition cout (s : string) : M unit := call (Cout s).
Definition endl : M unit := call Endl.

End Lib.
Import Lib.

(** ** The program *)

(** [void framebuffer_size_callback(GLFWwindow* window, int width, int height)] *)
Definition framebuffer_size_callback (window : GLFWwindow) (width height : Z)
  : M unit :=
  glViewport 0 0 width height.

(** Calling a function of the program through its address. *)
Definition invoke (f : FnPtr) : GLFWwindow -> Z -> Z -> M unit :=
  match f with
  | fn_framebuffer_size_callback => framebuffer_size_callback
  end.

(** [glfwPollEvents] processes the queued events of the window: a resize
    calls the registered callback with the new size, a close request sets
    the close flag, anything else is of no concern to this program. *)
Definition deliver (ev : Event) : M unit :=
  match ev with
  | FramebufferResized width height =>
      s <- get ;;
      match fbsize_callback s with
      | Some (window, f) => invoke f window width height
      | None => ret tt
      end
  | CloseRequested => modify (set_should_close true)
  | OtherEvent => ret tt
  end.

Fixpoint deliver_all (evs : list Event) : M unit :=
  match evs with
  | [] => ret tt
  | ev :: rest => deliver ev ;; deliver_all rest
  end.

Definition glfwPollEvents : M unit :=
  call GlfwPollEvents ;;
  s <- get ;;
  evs <- ask (fun e => env_events e (poll_calls s)) ;;
  modify count_poll_call ;;
  deliver_all evs.

Definition is_press (a : KeyAction) : bool :=
  match a with
  | GLFW_PRESS => true
  | _ => false
  end.

(** [void processInput(GLFWwindow* window)] *)
Definition processInput (window : GLFWwindow) : M unit :=
  a <- glfwGetKey window GLFW_KEY_ESCAPE ;;
  if is_press a
  then glfwSetWindowShouldClose window true
  else ret tt.

(** The two settings constants of the source; [main] does not use them
    and writes the literals again. *)
Definition SCR_WIDTH : Z := 800.
Definition SCR_HEIGHT : Z := 600.

Definition nl : string := String "010"%char EmptyString.

(** The shader sources as the C strings the driver reads: the characters
    before the first NUL of the literal. *)
Definition vertexShaderSource : string :=
  "#version 330 core" ++ nl ++
  "layout (location = 0) in vec3 aPos;" ++ nl ++
  "void main()" ++ nl ++
  "{" ++ nl ++
  "   gl_Position = vec4(aPos.x, aPos.y, aPos.z, 1.0);" ++ nl ++
  "}".

Definition fragmentShaderSource : string :=
  "#version 330 core" ++ nl ++
  "out vec4 FragColor;" ++ nl ++
  "void main()" ++ nl ++
  "{" ++ nl ++
  "   FragColor = vec4(1.0f, 0.5f, 0.2f, 1.0f);" ++ nl ++
  "}" ++ nl.

(** [sizeof(float)] on the platforms the program targets. *)
Definition sizeof_float : Z := 4.

(** [float vertices[]] of [main]. *)
Definition vertices : list GLfloat :=
  [ -0.5; -0.5; 0.0;
     0.5; -0.5; 0.0;
     0.0;  0.5; 0.0 ]%Q.

Definition sizeof_vertices : Z := Z.of_nat (List.length vertices) * sizeof_float.

(** The body of the [while] of [main]. *)
Definition frame (window : GLFWwindow) (shaderProgram VAO : GLuint) : M unit :=
  processInput window ;;
  glClearColor 0.2 0.3 0.3 1.0 ;;
  glClear GL_COLOR_BUFFER_BIT ;;
  glUseProgram shaderProgram ;;
  glBindVertexArray VAO ;;
  glDrawArrays GL_TRIANGLES 0 3 ;;
  glfwSwapBuffers window ;;
  glfwPollEvents.

(** [while (!glfwWindowShouldClose(window)) { ... }]; [fuel] bounds the
    number of evaluations of the condition. *)
Fixpoint render_loop (fuel : nat) (window : GLFWwindow)
  (shaderProgram VAO : GLuint) : M unit :=
  match fuel with
  | O => out_of_fuel
  | S fuel' =>
      close <- glfwWindowShouldClose window ;;
      if negb close
      then frame window shaderProgram VAO ;;
           render_loop fuel' window shaderProgram VAO
      else ret tt
  end.

(** [int main()] *)
Definition main (fuel : nat) : M Z :=
  _ <- glfwInit ;;
  glfwWindowHint GLFW_CONTEXT_VERSION_MAJOR (HintInt 3) ;;
  glfwWindowHint GLFW_CONTEXT_VERSION_MINOR (HintInt 3) ;;
  glfwWindowHint GLFW_OPENGL_PROFILE GLFW_OPENGL_CORE_PROFILE ;;
  window <- glfwCreateWindow 800 600 "LearnOpenGL" ;;
  match window with
  | None =>
      cout "Failed to create GLFW window" ;; endl ;;
      glfwTerminate ;;
      ret (-1)%Z
  | Some window =>
      glfwMakeContextCurrent window ;;
      glfwSetFramebufferSizeCallback window fn_framebuffer_size_callback ;;
      loaded <- gladLoadGLLoader ;;
      if (loaded =? 0)%Z
      then
        cout "Failed to initialize GLAD" ;; endl ;;
        ret (-1)%Z
      else
        (* vertex shader *)
        vertexShader <- glCreateShader GL_VERTEX_SHADER env_vertexShader ;;
        glShaderSource vertexShader 1 vertexShaderSource ;;
        glCompileShader vertexShader ;;
        success <- glGetShaderiv vertexShader GL_COMPILE_STATUS env_vertexStatus ;;
        (if (success =? 0)%Z
         then
           infoLog <- glGetShaderInfoLog vertexShader 512 env_vertexLog ;;
           cout ("ERROR::SHADER::VERTEX::COMPILATION_FAILED" ++ nl) ;;
           cout infoLog ;; endl
         else ret tt) ;;
        (* fragment shader *)
        fragmentShader <- glCreateShader GL_FRAGMENT_SHADER env_fragmentShader ;;
        glShaderSource fragmentShader 1 fragmentShaderSource ;;
        glCompileShader fragmentShader ;;
        success <- glGetShaderiv fragmentShader GL_COMPILE_STATUS env_fragmentStatus ;;
        (if (success =? 0)%Z
         then
           infoLog <- glGetShaderInfoLog fragmentShader 512 env_fragmentLog ;;
           cout ("ERROR::SHADER::FRAGMENT::COMPILATION_FAILED" ++ nl) ;;
           cout infoLog ;; endl
         else ret tt) ;;
        (* link shaders *)
        shaderProgram <- glCreateProgram ;;
        glAttachShader shaderProgram vertexShader ;;
        glAttachShader shaderProgram fragmentShader ;;
        glLinkProgram shaderProgram ;;
        success <- glGetProgramiv shaderProgram GL_LINK_STATUS ;;
        (if (success =? 0)%Z
         then
           infoLog <- glGetProgramInfoLog shaderProgram 512 ;;
           cout ("ERROR::SHADER::PROGRAM::LINKING_FAILED" ++ nl) ;;
           cout infoLog ;; endl
         else ret tt) ;;
        glUseProgram shaderProgram ;;
        glDeleteShader vertexShader ;;
        glDeleteShader fragmentShader ;;
        (* vertex buffer object *)
        VBO <- glGenBuffers 1 ;;
        glBindBuffer GL_ARRAY_BUFFER VBO ;;
        glBufferData GL_ARRAY_BUFFER sizeof_vertices vertices GL_STATIC_DRAW ;;
        (* vertex array object *)
        VAO <- glGenVertexArrays 1 ;;
        glBindVertexArray VAO ;;
        glVertexAttribPointer 0 3 GL_FLOAT false (3 * sizeof_float) 0 ;;
        glEnableVertexAttribArray 0 ;;
        glBindBuffer GL_ARRAY_BUFFER 0 ;;
        glBindVertexArray 0 ;;
        (* render loop *)
        render_loop fuel window shaderProgram VAO ;;
        (* de-allocate *)
        glDeleteVertexArrays 1 [VAO] ;;
        glDeleteBuffers 1 [VBO] ;;
        glDeleteProgram shaderProgram ;;
        glfwTerminate ;;
        ret 0%Z
  end.

(** Running the program from the start of the process. *)
Definition run (fuel : nat) (e : Env) : option Z * Glfw * list Call :=
  main fuel e glfw_start.

(** * Describing the trace

    The call sequences that the theorems below compare the program with. *)

(** The resize callback registered by [main] is the only function of the
    program a library calls back; these are the calls it makes while
    [glfwPollEvents] goes through a queue [evs]. *)
Definition callback_calls (cb : option (GLFWwindow * FnPtr)) (evs : list Event)
  : list Call :=
  flat_map
    (fun ev =>
       match ev, cb with
       | FramebufferResized width height, Some (_, fn_framebuffer_size_callback) =>
           [GlViewport 0 0 width height]
       | _, _ => []
       end) evs.

Definition is_close_request (ev : Event) : bool :=
  match ev with
  | CloseRequested => true
  | _ => false
  end.

Definition close_requested (evs : list Event) : bool := existsb is_close_request evs.

(** The calls of [processInput] when [glfwGetKey] answers [a]. *)
Definition input_calls (window : GLFWwindow) (a : KeyAction) : list Call :=
  GlfwGetKey window GLFW_KEY_ESCAPE ::
  (if is_press a then [GlfwSetWindowShouldClose window true] else []).

(** Clear, draw, swap, poll: the rest of the loop body. *)
Definition render_calls (window : GLFWwindow) (shaderProgram VAO : GLuint)
  : list Call :=
  [ GlClearColor 0.2 0.3 0.3 1.0;
    GlClear GL_COLOR_BUFFER_BIT;
    GlUseProgram shaderProgram;
    GlBindVertexArray VAO;
    GlDrawArrays GL_TRIANGLES 0 3;
    GlfwSwapBuffers window;
    GlfwPollEvents ].

(** One pass through the loop body, in a library state [s]. *)
Definition frame_calls (window : GLFWwindow) (shaderProgram VAO : GLuint)
  (e : Env) (s : Glfw) : list Call :=
  input_calls window (env_key e (key_calls s)) ++
  render_calls window shaderProgram VAO ++
  callback_calls (fbsize_callback s) (env_events e (poll_calls s)).

(** Does the frame run in state [s] leave the close flag set? *)
Definition closing (e : Env) (s : Glfw) : bool :=
  is_press (env_key e (key_calls s)) || close_requested (env_events e (poll_calls s)).

Definition after_frame (e : Env) (s : Glfw) : Glfw :=
  {| glfw_live := glfw_live s;
     should_close := should_close s || closing e s;
     fbsize_callback := fbsize_callback s;
     key_calls := S (key_calls s);
     poll_calls := S (poll_calls s) |}.

(** The library state [n] frames after [s]. *)
Fixpoint after_frames (e : Env) (n : nat) (s : Glfw) : Glfw :=
  match n with
  | O => s
  | S n' => after_frames e n' (after_frame e s)
  end.

(** [n] evaluations of the loop condition that find the flag unset, each
    followed by the loop body. *)
Fixpoint iterations (window : GLFWwindow) (shaderProgram VAO : GLuint)
  (e : Env) (n : nat) (s : Glfw) : list Call :=
  match n with
  | O => []
  | S n' =>
      (GlfwWindowShouldClose window :: frame_calls window shaderProgram VAO e s) ++
      iterations window shaderProgram VAO e n' (after_frame e s)
  end.

(** ** Counting the frames of the loop *)

(** The number of times the loop body runs from state [s] when the
    condition may be evaluated [fuel] times. *)
Fixpoint frames_run (e : Env) (fuel : nat) (s : Glfw) : nat :=
  match fuel with
  | O => O
  | S fuel' =>
      if should_close s then O else S (frames_run e fuel' (after_frame e s))
  end.

(** The evaluation of the condition that ends the loop, when the fuel
    allows it. *)
Definition loop_exit_calls (window : GLFWwindow) (n fuel : nat) : list Call :=
  if Nat.ltb n fuel then [GlfwWindowShouldClose window] else [].

(** ** The whole program *)

Definition startup_calls : list Call :=
  [ GlfwInit;
    GlfwWindowHint GLFW_CONTEXT_VERSION_MAJOR (HintInt 3);
    GlfwWindowHint GLFW_CONTEXT_VERSION_MINOR (HintInt 3);
    GlfwWindowHint GLFW_OPENGL_PROFILE GLFW_OPENGL_CORE_PROFILE;
    GlfwCreateWindow 800 600 "LearnOpenGL" ].

Definition context_calls (window : GLFWwindow) : list Call :=
  [ GlfwMakeContextCurrent window;
    GlfwSetFramebufferSizeCallback window fn_framebuffer_size_callback;
    GladLoadGLLoader ].

(** Fetching and printing an info log, when [status] reports failure. *)
Definition report_calls (status : Z) (fetch : Call) (title log : string)
  : list Call :=
  if (status =? 0)%Z
  then [fetch; Cout (title ++ nl); Cout log; Endl]
  else [].

Definition vertex_shader_calls (e : Env) : list Call :=
  [ GlCreateShader GL_VERTEX_SHADER;
    GlShaderSource (env_vertexShader e) 1 vertexShaderSource;
    GlCompileShader (env_vertexShader e);
    GlGetShaderiv (env_vertexShader e) GL_COMPILE_STATUS ] ++
  report_calls (env_vertexStatus e)
    (GlGetShaderInfoLog (env_vertexShader e) 512)
    "ERROR::SHADER::VERTEX::COMPILATION_FAILED" (env_vertexLog e).

Definition fragment_shader_calls (e : Env) : list Call :=
  [ GlCreateShader GL_FRAGMENT_SHADER;
    GlShaderSource (env_fragmentShader e) 1 fragmentShaderSource;
    GlCompileShader (env_fragmentShader e);
    GlGetShaderiv (env_fragmentShader e) GL_COMPILE_STATUS ] ++
  report_calls (env_fragmentStatus e)
    (GlGetShaderInfoLog (env_fragmentShader e) 512)
    "ERROR::SHADER::FRAGMENT::COMPILATION_FAILED" (env_fragmentLog e).

Definition link_calls (e : Env) : list Call :=
  [ GlCreateProgram;
    GlAttachShader (env_shaderProgram e) (env_vertexShader e);
    GlAttachShader (env_shaderProgram e) (env_fragmentShader e);
    GlLinkProgram (env_shaderProgram e);
    GlGetProgramiv (env_shaderProgram e) GL_LINK_STATUS ] ++
  report_calls (env_linkStatus e)
    (GlGetProgramInfoLog (env_shaderProgram e) 512)
    "ERROR::SHADER::PROGRAM::LINKING_FAILED" (env_programLog e).

Definition shader_release_calls (e : Env) : list Call :=
  [ GlUseProgram (env_shaderProgram e);
    GlDeleteShader (env_vertexShader e);
    GlDeleteShader (env_fragmentShader e) ].

Definition buffer_calls (e : Env) : list Call :=
  [ GlGenBuffers 1;
    GlBindBuffer GL_ARRAY_BUFFER (env_VBO e);
    GlBufferData GL_ARRAY_BUFFER 36 vertices GL_STATIC_DRAW;
    GlGenVertexArrays 1;
    GlBindVertexArray (env_VAO e);
    GlVertexAttribPointer 0 3 GL_FLOAT false 12 0;
    GlEnableVertexAttribArray 0;
    GlBindBuffer GL_ARRAY_BUFFER 0;
    GlBindVertexArray 0 ].

Definition setup_calls (e : Env) : list Call :=
  vertex_shader_calls e ++ fragment_shader_calls e ++ link_calls e ++
  shader_release_calls e ++ buffer_calls e.

Definition shutdown_calls (e : Env) : list Call :=
  [ GlDeleteVertexArrays 1 [env_VAO e];
    GlDeleteBuffers 1 [env_VBO e];
    GlDeleteProgram (env_shaderProgram e);
    GlfwTerminate ].

(** The library state when the render loop is entered. *)
Definition at_loop_entry (e : Env) (window : GLFWwindow) : Glfw :=
  {| glfw_live := env_init e;
     should_close := false;
     fbsize_callback := Some (window, fn_framebuffer_size_callback);
     key_calls := 0;
     poll_calls := 0 |}.


(** The calls of the [i]-th pass through the loop of [main] (from 0):
    the evaluation of the condition, then the body, with the resize
    callback that [main] registered. *)
Definition iteration_calls (window : GLFWwindow) (shaderProgram VAO : GLuint)
  (e : Env) (i : nat) : list Call :=
  [ GlfwWindowShouldClose window ] ++
  input_calls window (env_key e i) ++
  render_calls window shaderProgram VAO ++
  callback_calls (Some (window, fn_framebuffer_size_callback)) (env_events e i).

(** The same environment, except for what [glfwInit] returns. *)
Definition with_init (b : bool) (e : Env) : Env :=
  {| env_init := b;
     env_window := env_window e;
     env_glad := env_glad e;
     env_vertexShader := env_vertexShader e;
     env_vertexStatus := env_vertexStatus e;
     env_vertexLog := env_vertexLog e;
     env_fragmentShader := env_fragmentShader e;
     env_fragmentStatus := env_fragmentStatus e;
     env_fragmentLog := env_fragmentLog e;
     env_shaderProgram := env_shaderProgram e;
     env_linkStatus := env_linkStatus e;
     env_programLog := env_programLog e;
     env_VBO := env_VBO e;
     env_VAO := env_VAO e;
     env_key := env_key e;
     env_events := env_events e |}.

(** ** Selecting calls *)

Definition count (p : Call -> bool) (tr : list Call) : nat :=
  List.length (filter p tr).

(** What follows the first call that satisfies [p]. *)
Fixpoint after_first (p : Call -> bool) (tr : list Call) : list Call :=
  match tr with
  | [] => []
  | c :: rest => if p c then rest else after_first p rest
  end.

(** No [q] call is made after the first [p] call. *)
Definition never_after (p q : Call -> bool) (tr : list Call) : bool :=
  negb (existsb q (after_first p tr)).

Definition is_window_parameter (c : Call) : bool :=
  match c with
  | GlfwWindowHint _ _ | GlfwCreateWindow _ _ _ => true
  | _ => false
  end.

Definition is_terminate (c : Call) : bool :=
  match c with
  | GlfwTerminate => true
  | _ => false
  end.

(** An evaluation of the loop condition. *)
Definition is_loop_test (c : Call) : bool :=
  match c with
  | GlfwWindowShouldClose _ => true
  | _ => false
  end.

(** A call of the driver: shader setup, buffer setup, drawing, deletion. *)
Definition is_gl_call (c : Call) : bool :=
  match c with
  | GlfwInit | GlfwWindowHint _ _ | GlfwCreateWindow _ _ _ | GlfwTerminate
  | GlfwMakeContextCurrent _ | GlfwSetFramebufferSizeCallback _ _
  | GladLoadGLLoader | GlfwWindowShouldClose _ | GlfwGetKey _ _
  | GlfwSetWindowShouldClose _ _ | GlfwSwapBuffers _ | GlfwPollEvents
  | Cout _ | Endl => false
  | _ => true
  end.

Definition is_set_close (c : Call) : bool :=
  match c with
  | GlfwSetWindowShouldClose _ true => true
  | _ => false
  end.

Definition is_draw (c : Call) : bool :=
  match c with
  | GlDrawArrays _ _ _ => true
  | _ => false
  end.

(** ** The driver-owned handles of the data model *)

Inductive HandleClass : Type :=
| ShaderObject
| ProgramObject
| BufferObject
| VertexArrayObject.

(** The program holds two shader objects and one object of each other
    class. *)
Definition handles_of (k : HandleClass) : nat :=
  match k with
  | ShaderObject => 2
  | _ => 1
  end.

Definition creates (k : HandleClass) (c : Call) : bool :=
  match k, c with
  | ShaderObject, GlCreateShader _ => true
  | ProgramObject, GlCreateProgram => true
  | BufferObject, GlGenBuffers _ => true
  | VertexArrayObject, GlGenVertexArrays _ => true
  | _, _ => false
  end.

Definition destroys (k : HandleClass) (c : Call) : bool :=
  match k, c with
  | ShaderObject, GlDeleteShader _ => true
  | ProgramObject, GlDeleteProgram _ => true
  | BufferObject, GlDeleteBuffers _ _ => true
  | VertexArrayObject, GlDeleteVertexArrays _ _ => true
  | _, _ => false
  end.

Definition is_create_or_destroy (c : Call) : bool :=
  match c with
  | GlCreateShader _ | GlCreateProgram | GlGenBuffers _ | GlGenVertexArrays _
  | GlDeleteShader _ | GlDeleteProgram _ | GlDeleteBuffers _ _
  | GlDeleteVertexArrays _ _ => true
  | _ => false
  end.

(** A call that is handed the name of a driver object. *)
Definition names_object (c : Call) : bool :=
  match c with
  | GlShaderSource _ _ _ | GlCompileShader _ | GlGetShaderiv _ _
  | GlGetShaderInfoLog _ _ | GlAttachShader _ _ | GlLinkProgram _
  | GlGetProgramiv _ _ | GlGetProgramInfoLog _ _ | GlUseProgram _
  | GlDeleteShader _ | GlBindBuffer _ _ | GlBindVertexArray _
  | GlDeleteVertexArrays _ _ | GlDeleteBuffers _ _ | GlDeleteProgram _ => true
  | _ => false
  end.

(** The lifecycle the data model gives every handle, read on the trace of
    a run: as many creations as handles of the class, none of them after
    the loop has started; as many destructions, none of them followed by
    another evaluation of the loop condition. *)
Definition created_at_startup (k : HandleClass) (tr : list Call) : Prop :=
  count (creates k) tr = handles_of k /\
  never_after is_loop_test (creates k) tr = true.

Definition destroyed_at_shutdown (k : HandleClass) (tr : list Call) : Prop :=
  count (destroys k) tr = handles_of k /\
  never_after (destroys k) is_loop_test tr = true.

(** What the code does with the shader objects instead: they are
    destroyed before the loop starts. *)
Definition destroyed_at_startup (k : HandleClass) (tr : list Call) : Prop :=
  count (destroys k) tr = handles_of k /\
  never_after is_loop_test (destroys k) tr = true.

(** The calls a pass through the loop can make. *)
Definition loop_call (window : GLFWwindow) (shaderProgram VAO : GLuint)
  (c : Call) : Prop :=
  In c ([ GlfwWindowShouldClose window;
          GlfwGetKey window GLFW_KEY_ESCAPE;
          GlfwSetWindowShouldClose window true ] ++
        render_calls window shaderProgram VAO) \/
  exists width height, c = GlViewport 0 0 width height.

(** Discharging [p c = false] for every call a loop can make. *)
Ltac loop_call_cases H :=
  let width := fresh "width" in
  let height := fresh "height" in
  destruct H as [H | (width & height & ->)];
  [ simpl in H; repeat (destruct H as [<- | H]; [reflexivity|]); contradiction
  | reflexivity ].

(** The lifecycle as the data model words it: every handle is created
    once at startup and destroyed once at shutdown, after the loop. *)
Definition lifecycle_as_specified (tr : list Call) : Prop :=
  forall k, created_at_startup k tr /\ destroyed_at_shutdown k tr.

(** The setup of a run, for each outcome of the three status queries. *)
Ltac setup_cases e :=
  unfold setup_calls, vertex_shader_calls, fragment_shader_calls, link_calls,
    report_calls;
  destruct (env_vertexStatus e =? 0)%Z, (env_fragmentStatus e =? 0)%Z,
    (env_linkStatus e =? 0)%Z.

(** ** Example environments *)

(** Everything succeeds; the window is resized during the first frame and
    the escape key is found pressed in the second. *)
Definition example_env : Env :=
  {| env_init := true;
     env_window := Some 7%N;
     env_glad := 1%Z;
     env_vertexShader := 1%N;
     env_vertexStatus := 1%Z;
     env_vertexLog := "";
     env_fragmentShader := 2%N;
     env_fragmentStatus := 1%Z;
     env_fragmentLog := "";
     env_shaderProgram := 3%N;
     env_linkStatus := 1%Z;
     env_programLog := "";
     env_VBO := 1%N;
     env_VAO := 1%N;
     env_key := fun n => if Nat.eqb n 1 then GLFW_PRESS else GLFW_RELEASE;
     env_events := fun n => if Nat.eqb n 0 then [FramebufferResized 640 480] else [] |}.

(** No window can be created. *)
Definition no_window_env : Env :=
  {| env_init := true;
     env_window := None;
     env_glad := 1%Z;
     env_vertexShader := 1%N;
     env_vertexStatus := 1%Z;
     env_vertexLog := "";
     env_fragmentShader := 2%N;
     env_fragmentStatus := 1%Z;
     env_fragmentLog := "";
     env_shaderProgram := 3%N;
     env_linkStatus := 1%Z;
     env_programLog := "";
     env_VBO := 1%N;
     env_VAO := 1%N;
     env_key := fun _ => GLFW_RELEASE;
     env_events := fun _ => [] |}.

(** The window is created but the function pointers cannot be loaded. *)
Definition no_loader_env : Env :=
  {| env_init := true;
     env_window := Some 7%N;
     env_glad := 0%Z;
     env_vertexShader := 1%N;
     env_vertexStatus := 1%Z;
     env_vertexLog := "";
     env_fragmentShader := 2%N;
     env_fragmentStatus := 1%Z;
     env_fragmentLog := "";
     env_shaderProgram := 3%N;
     env_linkStatus := 1%Z;
     env_programLog := "";
     env_VBO := 1%N;
     env_VAO := 1%N;
     env_key := fun _ => GLFW_RELEASE;
     env_events := fun _ => [] |}.

(** The fragment shader does not compile and the program does not link;
    the user closes the window during the first frame. *)
Definition broken_shader_env : Env :=
  {| env_init := true;
     env_window := Some 7%N;
     env_glad := 1%Z;
     env_vertexShader := 1%N;
     env_vertexStatus := 1%Z;
     env_vertexLog := "";
     env_fragmentShader := 2%N;
     env_fragmentStatus := 0%Z;
     env_fragmentLog := "0:5: syntax error";
     env_shaderProgram := 3%N;
     env_linkStatus := 0%Z;
     env_programLog := "link failed";
     env_VBO := 1%N;
     env_VAO := 1%N;
     env_key := fun _ => GLFW_RELEASE;
     env_events := fun n => if Nat.eqb n 0 then [CloseRequested] else [] |}.

(** The library state of [example_env] when its second frame starts. *)
Definition example_second_frame : Glfw :=
  after_frame example_env (at_loop_entry example_env 7%N).

(** * Further readings of the trace *)

(** ** More call selectors *)

(** Something written on standard output. *)
Definition is_output (c : Call) : bool :=
  match c with
  | Cout _ | Endl => true
  | _ => false
  end.

Definition is_endl (c : Call) : bool :=
  match c with
  | Endl => true
  | _ => false
  end.

(** The calls of an [if (!success) { ... }] block: fetching an info log
    and printing it. *)
Definition is_report (c : Call) : bool :=
  match c with
  | GlGetShaderInfoLog _ _ | GlGetProgramInfoLog _ _ | Cout _ | Endl => true
  | _ => false
  end.

Definition is_loader (c : Call) : bool :=
  match c with
  | GladLoadGLLoader => true
  | _ => false
  end.

Definition is_make_current (c : Call) : bool :=
  match c with
  | GlfwMakeContextCurrent _ => true
  | _ => false
  end.

Definition is_swap (c : Call) : bool :=
  match c with
  | GlfwSwapBuffers _ => true
  | _ => false
  end.

Definition is_poll (c : Call) : bool :=
  match c with
  | GlfwPollEvents => true
  | _ => false
  end.

Definition is_key_query (c : Call) : bool :=
  match c with
  | GlfwGetKey _ _ => true
  | _ => false
  end.

Definition is_viewport (c : Call) : bool :=
  match c with
  | GlViewport _ _ _ _ => true
  | _ => false
  end.





Definition any_call (c : Call) : bool := true.

(** What precedes the first call that satisfies [p] (everything, when
    there is none). *)
Fixpoint before_first (p : Call -> bool) (tr : list Call) : list Call :=
  match tr with
  | [] => []
  | c :: rest => if p c then [] else c :: before_first p rest
  end.

(** A call that works with an object of class [k] without destroying
    it. *)
Definition uses (k : HandleClass) (c : Call) : bool :=
  match k, c with
  | ShaderObject, (GlShaderSource _ _ _ | GlCompileShader _ | GlGetShaderiv _ _
                  | GlGetShaderInfoLog _ _ | GlAttachShader _ _) => true
  | ProgramObject, (GlAttachShader _ _ | GlLinkProgram _ | GlGetProgramiv _ _
                   | GlGetProgramInfoLog _ _ | GlUseProgram _
                   | GlDrawArrays _ _ _) => true
  | BufferObject, (GlBindBuffer _ _ | GlBufferData _ _ _ _
                  | GlVertexAttribPointer _ _ _ _ _ _ | GlDrawArrays _ _ _) => true
  | VertexArrayObject, (GlBindVertexArray _ | GlVertexAttribPointer _ _ _ _ _ _
                       | GlEnableVertexAttribArray _ | GlDrawArrays _ _ _) => true
  | _, _ => false
  end.

(** The window a GLFW call is made on. *)
Definition window_of (c : Call) : option GLFWwindow :=
  match c with
  | GlfwMakeContextCurrent w
  | GlfwSetFramebufferSizeCallback w _
  | GlfwWindowShouldClose w
  | GlfwGetKey w _
  | GlfwSetWindowShouldClose w _
  | GlfwSwapBuffers w => Some w
  | _ => None
  end.

(** The call passes the window [window] whenever it passes a window, and
    never asks for the close flag to be cleared. *)
Definition on_window (window : GLFWwindow) (c : Call) : bool :=
  match window_of c with
  | Some w => N.eqb w window
  | None => true
  end &&
  match c with
  | GlfwSetWindowShouldClose _ false => false
  | _ => true
  end.

(** ** Environments that differ in the status answers only *)

Definition with_statuses (vertex fragment link : Z) (e : Env) : Env :=
  {| env_init := env_init e;
     env_window := env_window e;
     env_glad := env_glad e;
     env_vertexShader := env_vertexShader e;
     env_vertexStatus := vertex;
     env_vertexLog := env_vertexLog e;
     env_fragmentShader := env_fragmentShader e;
     env_fragmentStatus := fragment;
     env_fragmentLog := env_fragmentLog e;
     env_shaderProgram := env_shaderProgram e;
     env_linkStatus := link;
     env_programLog := env_programLog e;
     env_VBO := env_VBO e;
     env_VAO := env_VAO e;
     env_key := env_key e;
     env_events := env_events e |}.

(** ** The inputs of the frames *)

(** Frame [i] finds the escape key pressed or a close request queued. *)
Definition frame_closes (e : Env) (i : nat) : bool :=
  is_press (env_key e i) || close_requested (env_events e i).

(** The events found by the first [n] calls of [glfwPollEvents]. *)
Definition events_polled (e : Env) (n : nat) : list Event :=
  concat (map (env_events e) (seq 0 n)).

(** One viewport call per resize event, with the size of the event. *)
Definition resize_calls (evs : list Event) : list Call :=
  flat_map
    (fun ev =>
       match ev with
       | FramebufferResized width height => [GlViewport 0 0 width height]
       | _ => []
       end) evs.

(** ** The objects selected by the binding calls

    [glUseProgram], [glBindBuffer(GL_ARRAY_BUFFER, ...)] and
    [glBindVertexArray] select the object later calls work on.  The
    selection in force after a trace is the argument of the most recent
    call of each kind, 0 when there is none. *)
Record Bindings : Type := mkBindings {
  current_program : GLuint;
  array_buffer : GLuint;
  vertex_array : GLuint
}.

Definition unbound : Bindings :=
  {| current_program := 0%N; array_buffer := 0%N; vertex_array := 0%N |}.

Definition bind_step (b : Bindings) (c : Call) : Bindings :=
  match c with
  | GlUseProgram program =>
      {| current_program := program;
         array_buffer := array_buffer b;
         vertex_array := vertex_array b |}
  | GlBindBuffer GL_ARRAY_BUFFER buffer =>
      {| current_program := current_program b;
         array_buffer := buffer;
         vertex_array := vertex_array b |}
  | GlBindVertexArray array =>
      {| current_program := current_program b;
         array_buffer := array_buffer b;
         vertex_array := array |}
  | _ => b
  end.

Definition bindings_after (tr : list Call) : Bindings :=
  fold_left bind_step tr unbound.

(** [want c b] holds for every call [c] of a trace, [b] being the
    selection in force when [c] is made. *)
Fixpoint holds_at_each (want : Call -> Bindings -> bool) (b : Bindings)
  (tr : list Call) : bool :=
  match tr with
  | [] => true
  | c :: rest => want c b && holds_at_each want (bind_step b c) rest
  end.

(** The buffer upload and the attribute calls find the buffer and the
    vertex array of this run selected. *)
Definition bound_for_setup (e : Env) (c : Call) (b : Bindings) : bool :=
  match c with
  | GlBufferData _ _ _ _ => N.eqb (array_buffer b) (env_VBO e)
  | GlVertexAttribPointer _ _ _ _ _ _ =>
      N.eqb (vertex_array b) (env_VAO e) && N.eqb (array_buffer b) (env_VBO e)
  | GlEnableVertexAttribArray _ => N.eqb (vertex_array b) (env_VAO e)
  | _ => true
  end.

(** A draw finds the program and the vertex array of this run selected,
    and no array buffer. *)
Definition bound_for_draw (e : Env) (c : Call) (b : Bindings) : bool :=
  match c with
  | GlDrawArrays _ _ _ =>
      N.eqb (current_program b) (env_shaderProgram e) &&
      N.eqb (vertex_array b) (env_VAO e) &&
      N.eqb (array_buffer b) 0
  | _ => true
  end.

(** Both requirements at once. *)
Definition well_bound (e : Env) (c : Call) (b : Bindings) : bool :=
  bound_for_setup e c b && bound_for_draw e c b.

(** ** More example environments *)

(** Nobody ever presses escape or closes the window. *)
Definition idle_env : Env :=
  {| env_init := true;
     env_window := Some 7%N;
     env_glad := 1%Z;
     env_vertexShader := 1%N;
     env_vertexStatus := 1%Z;
     env_vertexLog := "";
     env_fragmentShader := 2%N;
     env_fragmentStatus := 1%Z;
     env_fragmentLog := "";
     env_shaderProgram := 3%N;
     env_linkStatus := 1%Z;
     env_programLog := "";
     env_VBO := 1%N;
     env_VAO := 1%N;
     env_key := fun _ => GLFW_RELEASE;
     env_events := fun _ => [] |}.

(** * The program, call by call *)

Lemma set_should_close_same (s : Glfw) : set_should_close (should_close s) s = s.
Proof. destruct s; reflexivity. Qed.

Lemma deliver_all_run (e : Env) (evs : list Event) :
  forall s,
    deliver_all evs e s =
    (Some tt,
     set_should_close (should_close s || close_requested evs) s,
     callback_calls (fbsize_callback s) evs).
Proof.
  induction evs as [|ev rest IH]; intro s.
  - simpl. unfold ret. rewrite orb_false_r, set_should_close_same. reflexivity.
  - simpl deliver_all. unfold bind.
    destruct ev as [width height | | ].
    + unfold deliver, bind, get.
      destruct (fbsize_callback s) as [[window f]|] eqn:Hcb.
      * destruct f. simpl. rewrite IH, Hcb. reflexivity.
      * simpl. rewrite IH, Hcb. reflexivity.
    + simpl. rewrite IH. simpl.
      rewrite orb_true_r. reflexivity.
    + simpl. rewrite IH. reflexivity.
Qed.

Lemma processInput_run (window : GLFWwindow) (e : Env) (s : Glfw) :
  processInput window e s =
  (Some tt,
   count_key_call
     (set_should_close (should_close s || is_press (env_key e (key_calls s))) s),
   input_calls window (env_key e (key_calls s))).
Proof.
  unfold processInput, glfwGetKey, glfwSetWindowShouldClose, input_calls,
    bind, call, get, ask, modify, ret.
  simpl. destruct (is_press (env_key e (key_calls s))); simpl.
  - rewrite orb_true_r. reflexivity.
  - rewrite orb_false_r. destruct s; reflexivity.
Qed.

Lemma frame_run (window : GLFWwindow) (shaderProgram VAO : GLuint)
  (e : Env) (s : Glfw) :
  frame window shaderProgram VAO e s =
  (Some tt, after_frame e s, frame_calls window shaderProgram VAO e s).
Proof.
  unfold frame. unfold bind at 1. rewrite processInput_run.
  unfold glfwPollEvents, glClearColor, glClear, glUseProgram, glBindVertexArray,
    glDrawArrays, glfwSwapBuffers, bind, call, get, ask, modify.
  simpl. rewrite deliver_all_run. simpl.
  unfold frame_calls, after_frame, closing. simpl.
  rewrite orb_assoc. reflexivity.
Qed.

Lemma render_loop_exit (fuel : nat) (window : GLFWwindow)
  (shaderProgram VAO : GLuint) (e : Env) (s : Glfw) :
  should_close s = true ->
  render_loop (S fuel) window shaderProgram VAO e s =
  (Some tt, s, [GlfwWindowShouldClose window]).
Proof.
  intro H. simpl. unfold bind, glfwWindowShouldClose, call, get, ret. simpl.
  rewrite H. reflexivity.
Qed.

Lemma render_loop_step (fuel : nat) (window : GLFWwindow)
  (shaderProgram VAO : GLuint) (e : Env) (s : Glfw) :
  should_close s = false ->
  render_loop (S fuel) window shaderProgram VAO e s =
  match render_loop fuel window shaderProgram VAO e (after_frame e s) with
  | (r, s', t) =>
      (r, s',
       (GlfwWindowShouldClose window :: frame_calls window shaderProgram VAO e s)
         ++ t)
  end.
Proof.
  intro H. simpl render_loop.
  unfold bind at 1. unfold glfwWindowShouldClose, bind, call, get, ret. simpl.
  rewrite H. simpl. rewrite frame_run.
  destruct (render_loop fuel window shaderProgram VAO e (after_frame e s))
    as [[r s'] t].
  destruct r; reflexivity.
Qed.

Lemma after_frames_S (e : Env) (n : nat) :
  forall s, after_frames e (S n) s = after_frame e (after_frames e n s).
Proof.
  induction n as [|n IH]; intro s.
  - reflexivity.
  - change (after_frames e (S (S n)) s)
      with (after_frames e (S n) (after_frame e s)).
    rewrite IH. reflexivity.
Qed.

Lemma render_loop_run (window : GLFWwindow) (shaderProgram VAO : GLuint)
  (e : Env) (fuel : nat) :
  forall s,
    render_loop fuel window shaderProgram VAO e s =
    let n := frames_run e fuel s in
    (if Nat.ltb n fuel then Some tt else None,
     after_frames e n s,
     iterations window shaderProgram VAO e n s ++ loop_exit_calls window n fuel).
Proof.
  induction fuel as [|fuel IH]; intro s.
  - reflexivity.
  - destruct (should_close s) eqn:Hs.
    + rewrite render_loop_exit by exact Hs.
      simpl. rewrite Hs. reflexivity.
    + rewrite render_loop_step by exact Hs.
      rewrite IH. cbv zeta. cbn [frames_run]. rewrite Hs.
      cbn [after_frames iterations]. unfold loop_exit_calls.
      change (Nat.ltb (S (frames_run e fuel (after_frame e s))) (S fuel))
        with (Nat.ltb (frames_run e fuel (after_frame e s)) fuel).
      rewrite <- app_assoc. reflexivity.
Qed.

Lemma frames_run_le (e : Env) (fuel : nat) :
  forall s, frames_run e fuel s <= fuel.
Proof.
  induction fuel as [|fuel IH]; intro s; simpl.
  - lia.
  - destruct (should_close s); [lia|]. specialize (IH (after_frame e s)). lia.
Qed.

(** Every frame that runs was entered with the flag unset. *)
Lemma frames_run_open (e : Env) (fuel : nat) :
  forall s j,
    j < frames_run e fuel s -> should_close (after_frames e j s) = false.
Proof.
  induction fuel as [|fuel IH]; intros s j Hj; simpl in Hj.
  - lia.
  - destruct (should_close s) eqn:Hs; [lia|].
    destruct j as [|j]; [exact Hs|].
    simpl. apply IH. lia.
Qed.

(** The loop stops short of its fuel only at a set flag. *)
Lemma frames_run_closed (e : Env) (fuel : nat) :
  forall s,
    frames_run e fuel s < fuel ->
    should_close (after_frames e (frames_run e fuel s) s) = true.
Proof.
  induction fuel as [|fuel IH]; intros s Hlt; simpl in *.
  - lia.
  - destruct (should_close s) eqn:Hs; [exact Hs|].
    simpl. apply IH. lia.
Qed.

(** A flag found set at the [k]-th evaluation stops the loop there or
    earlier. *)
Lemma frames_run_stops (e : Env) (fuel : nat) :
  forall s k,
    should_close (after_frames e k s) = true ->
    k < fuel ->
    frames_run e fuel s <= k.
Proof.
  induction fuel as [|fuel IH]; intros s k Hk Hlt; simpl.
  - lia.
  - destruct (should_close s) eqn:Hs; [lia|].
    destruct k as [|k]; [simpl in Hk; congruence|].
    simpl in Hk. specialize (IH (after_frame e s) k Hk). lia.
Qed.

Lemma run_window_failure (fuel : nat) (e : Env) :
  env_window e = None ->
  run fuel e =
  (Some (-1)%Z, glfw_start,
   startup_calls ++ [Cout "Failed to create GLFW window"; Endl; GlfwTerminate]).
Proof.
  intro Hw. unfold run, main, glfwInit, glfwWindowHint, glfwCreateWindow,
    bind, call, ask, modify. simpl. rewrite Hw. reflexivity.
Qed.

Lemma run_loader_failure (fuel : nat) (e : Env) (window : GLFWwindow) :
  env_window e = Some window ->
  env_glad e = 0%Z ->
  run fuel e =
  (Some (-1)%Z, at_loop_entry e window,
   startup_calls ++ context_calls window ++
   [Cout "Failed to initialize GLAD"; Endl]).
Proof.
  intros Hw Hg. unfold run, main, glfwInit, glfwWindowHint, glfwCreateWindow,
    bind, call, ask, modify. simpl. rewrite Hw.
  unfold glfwMakeContextCurrent, glfwSetFramebufferSizeCallback, gladLoadGLLoader,
    bind, call, ask, modify. simpl. rewrite Hg. reflexivity.
Qed.

(** The run that gets past both checks: setup, the render loop from
    [at_loop_entry], and the shutdown once the loop has exited. *)
Lemma run_rendering (fuel : nat) (e : Env) (window : GLFWwindow) :
  env_window e = Some window ->
  env_glad e <> 0%Z ->
  run fuel e =
  let s := at_loop_entry e window in
  let n := frames_run e fuel s in
  (if Nat.ltb n fuel then Some 0%Z else None,
   if Nat.ltb n fuel then set_live false (after_frames e n s) else after_frames e n s,
   startup_calls ++ context_calls window ++ setup_calls e ++
   iterations window (env_shaderProgram e) (env_VAO e) e n s ++
   (if Nat.ltb n fuel then GlfwWindowShouldClose window :: shutdown_calls e else [])).
Proof.
  intros Hw Hg. apply Z.eqb_neq in Hg.
  pose proof (render_loop_run window (env_shaderProgram e) (env_VAO e) e fuel
                (at_loop_entry e window)) as Hloop.
  cbv zeta in Hloop. unfold loop_exit_calls in Hloop. cbv zeta.
  unfold run, main, glfwInit, glfwWindowHint, glfwCreateWindow,
    bind, call, ask, modify. simpl. rewrite Hw.
  unfold glfwMakeContextCurrent, glfwSetFramebufferSizeCallback, gladLoadGLLoader,
    bind, call, ask, modify. simpl. rewrite Hg.
  unfold setup_calls, vertex_shader_calls, fragment_shader_calls, link_calls,
    report_calls.
  unfold glCreateShader, glShaderSource, glCompileShader, glGetShaderiv,
    glGetShaderInfoLog, glCreateProgram, glAttachShader, glLinkProgram,
    glGetProgramiv, glGetProgramInfoLog, glUseProgram, glDeleteShader,
    glGenBuffers, glBindBuffer, glBufferData, glGenVertexArrays,
    glBindVertexArray, glVertexAttribPointer, glEnableVertexAttribArray,
    glDeleteVertexArrays, glDeleteBuffers, glDeleteProgram, glfwTerminate,
    cout, endl, bind, call, ask, modify, ret.
  destruct (env_vertexStatus e =? 0)%Z, (env_fragmentStatus e =? 0)%Z,
    (env_linkStatus e =? 0)%Z; simpl;
    match goal with
    | |- context [render_loop fuel _ _ _ e ?s] =>
        change s with (at_loop_entry e window)
    end;
    destruct (render_loop fuel window (env_shaderProgram e) (env_VAO e) e
                (at_loop_entry e window)) as [[r s1] t1];
    destruct (Nat.ltb (frames_run e fuel (at_loop_entry e window)) fuel);
    inversion Hloop; subst; simpl;
    rewrite <- ?app_assoc; simpl; rewrite ?app_nil_r; reflexivity.
Qed.

(** ** The library state across frames *)

Lemma after_frames_live (e : Env) (n : nat) :
  forall s, glfw_live (after_frames e n s) = glfw_live s.
Proof.
  induction n as [|n IH]; intro s; simpl; [reflexivity|].
  rewrite IH. reflexivity.
Qed.

Lemma after_frames_callback (e : Env) (n : nat) :
  forall s, fbsize_callback (after_frames e n s) = fbsize_callback s.
Proof.
  induction n as [|n IH]; intro s; simpl; [reflexivity|].
  rewrite IH. reflexivity.
Qed.

Lemma after_frames_key_calls (e : Env) (n : nat) :
  forall s, key_calls (after_frames e n s) = n + key_calls s.
Proof.
  induction n as [|n IH]; intro s; simpl; [reflexivity|].
  rewrite IH. simpl. lia.
Qed.

Lemma after_frames_poll_calls (e : Env) (n : nat) :
  forall s, poll_calls (after_frames e n s) = n + poll_calls s.
Proof.
  induction n as [|n IH]; intro s; simpl; [reflexivity|].
  rewrite IH. simpl. lia.
Qed.

(** ** The iterations of [main], by index *)

Lemma iterations_indexed (window : GLFWwindow) (shaderProgram VAO : GLuint)
  (e : Env) (n : nat) :
  forall s i,
    fbsize_callback s = Some (window, fn_framebuffer_size_callback) ->
    key_calls s = i ->
    poll_calls s = i ->
    iterations window shaderProgram VAO e n s =
    concat (map (iteration_calls window shaderProgram VAO e) (seq i n)).
Proof.
  induction n as [|n IH]; intros s i Hcb Hk Hp.
  - reflexivity.
  - cbn [iterations seq map concat].
    rewrite (IH (after_frame e s) (S i)); simpl; try congruence.
    unfold frame_calls, iteration_calls. rewrite Hcb, Hk, Hp. reflexivity.
Qed.

(** ** Which calls a loop can make *)

Lemma callback_calls_viewport (cb : option (GLFWwindow * FnPtr))
  (evs : list Event) (c : Call) :
  In c (callback_calls cb evs) ->
  exists width height, c = GlViewport 0 0 width height.
Proof.
  unfold callback_calls. rewrite in_flat_map.
  intros (ev & _ & Hc).
  destruct ev as [width height| |]; try contradiction.
  destruct cb as [[w f]|]; try contradiction.
  destruct f. destruct Hc as [<- | []]. eauto.
Qed.

Lemma frame_calls_loop_call (window : GLFWwindow) (shaderProgram VAO : GLuint)
  (e : Env) (s : Glfw) (c : Call) :
  In c (frame_calls window shaderProgram VAO e s) ->
  loop_call window shaderProgram VAO c.
Proof.
  unfold frame_calls, input_calls. intro H.
  apply in_app_or in H. destruct H as [H | H].
  - left. destruct (is_press (env_key e (key_calls s))); simpl in H |- *; tauto.
  - apply in_app_or in H. destruct H as [H | H].
    + left. apply in_or_app. right. exact H.
    + right. eapply callback_calls_viewport. exact H.
Qed.

Lemma iterations_loop_call (window : GLFWwindow) (shaderProgram VAO : GLuint)
  (e : Env) (n : nat) (c : Call) :
  forall s,
    In c (iterations window shaderProgram VAO e n s) ->
    loop_call window shaderProgram VAO c.
Proof.
  induction n as [|n IH]; intros s H; cbn [iterations] in H.
  - contradiction.
  - apply in_app_or in H. destruct H as [[<- | H] | H].
    + left. simpl. tauto.
    + eapply frame_calls_loop_call. exact H.
    + eapply IH. exact H.
Qed.

(** ** Selecting calls from a trace *)

Lemma filter_none (p : Call -> bool) (l : list Call) :
  (forall c, In c l -> p c = false) -> filter p l = [].
Proof.
  induction l as [|c l IH]; intro H; simpl.
  - reflexivity.
  - rewrite (H c) by (left; reflexivity).
    apply IH. intros c' Hc'. apply H. right. exact Hc'.
Qed.

Lemma existsb_none (p : Call -> bool) (l : list Call) :
  (forall c, In c l -> p c = false) -> existsb p l = false.
Proof.
  induction l as [|c l IH]; intro H; simpl.
  - reflexivity.
  - rewrite (H c) by (left; reflexivity).
    apply IH. intros c' Hc'. apply H. right. exact Hc'.
Qed.

Lemma count_app (p : Call -> bool) (a b : list Call) :
  count p (a ++ b) = count p a + count p b.
Proof. unfold count. rewrite filter_app, length_app. reflexivity. Qed.

Lemma after_first_skip (p : Call -> bool) (a b : list Call) :
  existsb p a = false -> after_first p (a ++ b) = after_first p b.
Proof.
  induction a as [|c a IH]; simpl; intro H.
  - reflexivity.
  - apply orb_false_iff in H. destruct H as [Hc Ha].
    rewrite Hc. apply IH. exact Ha.
Qed.

Lemma existsb_after_first (p q : Call -> bool) (l : list Call) :
  existsb q l = false -> existsb q (after_first p l) = false.
Proof.
  induction l as [|c l IH]; simpl; intro H.
  - reflexivity.
  - apply orb_false_iff in H. destruct H as [Hc Hl].
    destruct (p c); [exact Hl | apply IH; exact Hl].
Qed.

Lemma iterations_filter_none (p : Call -> bool) (window : GLFWwindow)
  (shaderProgram VAO : GLuint) (e : Env) (n : nat) (s : Glfw) :
  (forall c, loop_call window shaderProgram VAO c -> p c = false) ->
  filter p (iterations window shaderProgram VAO e n s) = [].
Proof.
  intro H. apply filter_none. intros c Hc. apply H.
  eapply iterations_loop_call. exact Hc.
Qed.

Lemma iterations_existsb_none (p : Call -> bool) (window : GLFWwindow)
  (shaderProgram VAO : GLuint) (e : Env) (n : nat) (s : Glfw) :
  (forall c, loop_call window shaderProgram VAO c -> p c = false) ->
  existsb p (iterations window shaderProgram VAO e n s) = false.
Proof.
  intro H. apply existsb_none. intros c Hc. apply H.
  eapply iterations_loop_call. exact Hc.
Qed.

(** ** What [glfwInit] returned does not reach the loop *)

Lemma frames_run_with_init (b : bool) (e : Env) (fuel : nat) :
  forall s s',
    should_close s' = should_close s ->
    key_calls s' = key_calls s ->
    poll_calls s' = poll_calls s ->
    frames_run (with_init b e) fuel s' = frames_run e fuel s.
Proof.
  induction fuel as [|fuel IH]; intros s s' Hc Hk Hp; simpl.
  - reflexivity.
  - rewrite Hc. destruct (should_close s) eqn:Hs; [reflexivity|].
    f_equal. apply IH; simpl; try congruence.
    unfold closing. simpl. rewrite Hc, Hs, Hk, Hp. reflexivity.
Qed.

Lemma iterations_with_init (b : bool) (window : GLFWwindow)
  (shaderProgram VAO : GLuint) (e : Env) (n : nat) :
  forall s s',
    fbsize_callback s' = fbsize_callback s ->
    key_calls s' = key_calls s ->
    poll_calls s' = poll_calls s ->
    iterations window shaderProgram VAO (with_init b e) n s' =
    iterations window shaderProgram VAO e n s.
Proof.
  induction n as [|n IH]; intros s s' Hcb Hk Hp; cbn [iterations].
  - reflexivity.
  - rewrite (IH (after_frame e s) (after_frame (with_init b e) s'))
      by (simpl; congruence).
    unfold frame_calls. simpl. rewrite Hcb, Hk, Hp. reflexivity.
Qed.

(** ** How every run starts *)

Lemma run_starts_with_startup_calls (fuel : nat) (e : Env) :
  exists rest, trace (run fuel e) = startup_calls ++ rest.
Proof.
  destruct (env_window e) as [window|] eqn:Hw.
  - destruct (Z.eq_dec (env_glad e) 0) as [Hg | Hg].
    + rewrite (run_loader_failure fuel e window Hw Hg). eexists. reflexivity.
    + rewrite (run_rendering fuel e window Hw Hg). eexists. reflexivity.
  - rewrite (run_window_failure fuel e Hw). eexists. reflexivity.
Qed.

(** ** When the close flag gets set *)

Lemma closing_sets_flag (e : Env) (k : nat) (s : Glfw) :
  closing e (after_frames e k s) = true ->
  should_close (after_frames e (S k) s) = true.
Proof.
  intro H. rewrite after_frames_S. simpl. rewrite H. apply orb_true_r.
Qed.

Lemma closing_at_loop_entry (e : Env) (window : GLFWwindow) (k : nat) :
  closing e (after_frames e k (at_loop_entry e window)) =
  is_press (env_key e k) || close_requested (env_events e k).
Proof.
  unfold closing.
  rewrite after_frames_key_calls, after_frames_poll_calls. simpl.
  rewrite Nat.add_0_r. reflexivity.
Qed.

Lemma render_loop_exits_iff (window : GLFWwindow) (shaderProgram VAO : GLuint)
  (e : Env) (fuel : nat) (s : Glfw) :
  result (render_loop fuel window shaderProgram VAO e s) = Some tt <->
  exists k, k < fuel /\ should_close (after_frames e k s) = true.
Proof.
  rewrite render_loop_run. cbv zeta. unfold result, fst.
  destruct (Nat.ltb_spec (frames_run e fuel s) fuel) as [Hlt | Hge].
  - split; [intros _ | reflexivity].
    exists (frames_run e fuel s). split; [exact Hlt|].
    apply frames_run_closed. exact Hlt.
  - split; [discriminate|].
    intros (k & Hk & Hflag).
    pose proof (frames_run_stops e fuel s k Hflag Hk). lia.
Qed.

Lemma run_exits_iff (fuel : nat) (e : Env) (window : GLFWwindow) :
  env_window e = Some window ->
  env_glad e <> 0%Z ->
  result (run fuel e) = Some 0%Z <->
  exists k, k < fuel /\
            should_close (after_frames e k (at_loop_entry e window)) = true.
Proof.
  intros Hw Hg.
  rewrite (run_rendering fuel e window Hw Hg). cbv zeta. unfold result, fst.
  destruct (Nat.ltb_spec (frames_run e fuel (at_loop_entry e window)) fuel)
    as [Hlt | Hge].
  - split; [intros _ | reflexivity].
    exists (frames_run e fuel (at_loop_entry e window)). split; [exact Hlt|].
    apply frames_run_closed. exact Hlt.
  - split; [discriminate|].
    intros (k & Hk & Hflag).
    pose proof (frames_run_stops e fuel (at_loop_entry e window) k Hflag Hk).
    lia.
Qed.

(** ** The objects a frame names *)

Lemma frame_calls_names (window : GLFWwindow) (shaderProgram VAO : GLuint)
  (e : Env) (s : Glfw) :
  filter names_object (frame_calls window shaderProgram VAO e s) =
  [GlUseProgram shaderProgram; GlBindVertexArray VAO].
Proof.
  unfold frame_calls, input_calls. rewrite !filter_app.
  rewrite (filter_none names_object (callback_calls _ _)).
  - destruct (is_press (env_key e (key_calls s))); reflexivity.
  - intros c Hc. apply callback_calls_viewport in Hc.
    destruct Hc as (width & height & ->). reflexivity.
Qed.

Lemma iterations_names (window : GLFWwindow) (shaderProgram VAO : GLuint)
  (e : Env) (n : nat) :
  forall s,
    filter names_object (iterations window shaderProgram VAO e n s) =
    concat (repeat [GlUseProgram shaderProgram; GlBindVertexArray VAO] n).
Proof.
  induction n as [|n IH]; intro s; cbn [iterations repeat concat].
  - reflexivity.
  - rewrite filter_app, IH. cbn [filter names_object].
    rewrite frame_calls_names. reflexivity.
Qed.

(** * Properties of the program *)

(** ** Window and context parameters *)

(** C6: the window and context creation parameters are the literals
    800, 600, 3, 3 and the core profile.  Every run starts by asking for
    context version 3.3, core profile, and an 800 by 600 window, and no
    other window hint or window creation call is made in the whole run. *)
Theorem C6_creation_parameters (fuel : nat) (e : Env) :
  (exists rest,
     trace (run fuel e) =
     [ GlfwInit;
       GlfwWindowHint GLFW_CONTEXT_VERSION_MAJOR (HintInt 3);
       GlfwWindowHint GLFW_CONTEXT_VERSION_MINOR (HintInt 3);
       GlfwWindowHint GLFW_OPENGL_PROFILE GLFW_OPENGL_CORE_PROFILE;
       GlfwCreateWindow 800 600 "LearnOpenGL" ] ++ rest) /\
  filter is_window_parameter (trace (run fuel e)) =
  [ GlfwWindowHint GLFW_CONTEXT_VERSION_MAJOR (HintInt 3);
    GlfwWindowHint GLFW_CONTEXT_VERSION_MINOR (HintInt 3);
    GlfwWindowHint GLFW_OPENGL_PROFILE GLFW_OPENGL_CORE_PROFILE;
    GlfwCreateWindow 800 600 "LearnOpenGL" ].
Proof.
  split; [apply run_starts_with_startup_calls|].
  destruct (env_window e) as [window|] eqn:Hw.
  - destruct (Z.eq_dec (env_glad e) 0) as [Hg | Hg].
    + rewrite (run_loader_failure fuel e window Hw Hg). reflexivity.
    + rewrite (run_rendering fuel e window Hw Hg). cbv zeta. unfold trace, snd.
      rewrite !filter_app.
      rewrite iterations_filter_none by (intros c H; loop_call_cases H).
      destruct (Nat.ltb (frames_run e fuel (at_loop_entry e window)) fuel);
        setup_cases e; reflexivity.
  - rewrite (run_window_failure fuel e Hw). reflexivity.
Qed.

(** ** The two checked failures of the startup *)

(** C2: when no window can be created, or when the function pointers
    cannot be loaded, the program prints its diagnostic on standard
    output and returns -1, a nonzero exit code; no call of the driver is
    made (no shader or buffer setup) and the loop condition is never
    evaluated. *)
Theorem C2_startup_failure_aborts (fuel : nat) (e : Env) :
  env_window e = None \/ env_glad e = 0%Z ->
  exists before after,
    trace (run fuel e) =
    before ++
    [ Cout (match env_window e with
            | None => "Failed to create GLFW window"
            | Some _ => "Failed to initialize GLAD"
            end);
      Endl ] ++
    after /\
    (exists code, result (run fuel e) = Some code /\ code = (-1)%Z /\ code <> 0%Z) /\
    existsb is_gl_call (trace (run fuel e)) = false /\
    existsb is_loop_test (trace (run fuel e)) = false.
Proof.
  intro H.
  destruct (env_window e) as [window|] eqn:Hw.
  - destruct H as [H | Hg]; [discriminate|].
    rewrite (run_loader_failure fuel e window Hw Hg).
    exists (startup_calls ++ context_calls window), [].
    repeat split.
    exists (-1)%Z. repeat split. discriminate.
  - rewrite (run_window_failure fuel e Hw).
    exists startup_calls, [GlfwTerminate].
    repeat split.
    exists (-1)%Z. repeat split. discriminate.
Qed.

Lemma C2_witness_no_window :
  (env_window no_window_env = None \/ env_glad no_window_env = 0%Z) /\
  exists before after,
    trace (run 3 no_window_env) =
    before ++ [Cout "Failed to create GLFW window"; Endl] ++ after /\
    (exists code, result (run 3 no_window_env) = Some code /\
                  code = (-1)%Z /\ code <> 0%Z) /\
    existsb is_gl_call (trace (run 3 no_window_env)) = false /\
    existsb is_loop_test (trace (run 3 no_window_env)) = false.
Proof.
  split.
  - left. reflexivity.
  - apply (C2_startup_failure_aborts 3 no_window_env). left. reflexivity.
Defined.

(** C8: the two abort paths differ.  When the loader fails the program
    returns -1 without ever calling [glfwTerminate], so the library is
    left as [glfwInit] left it; when the window cannot be created the
    program calls [glfwTerminate] last and then returns -1.  After a
    successful [glfwInit] the library is therefore still initialised on
    the first path and terminated on the second. *)
Theorem C8_abort_paths_differ (fuel : nat) (e1 e2 : Env) (window : GLFWwindow) :
  env_window e1 = Some window ->
  env_glad e1 = 0%Z ->
  env_window e2 = None ->
  (result (run fuel e1) = Some (-1)%Z /\
   existsb is_terminate (trace (run fuel e1)) = false /\
   glfw_live (final (run fuel e1)) = env_init e1) /\
  (result (run fuel e2) = Some (-1)%Z /\
   (exists before, trace (run fuel e2) = before ++ [GlfwTerminate]) /\
   glfw_live (final (run fuel e2)) = false) /\
  (env_init e1 = true ->
   glfw_live (final (run fuel e1)) <> glfw_live (final (run fuel e2))).
Proof.
  intros Hw Hg Hn.
  rewrite (run_loader_failure fuel e1 window Hw Hg).
  rewrite (run_window_failure fuel e2 Hn).
  split; [|split].
  - repeat split.
  - repeat split.
    exists (startup_calls ++ [Cout "Failed to create GLFW window"; Endl]).
    reflexivity.
  - unfold final, fst, snd. simpl. intros -> H. discriminate.
Qed.

Lemma C8_witness :
  (env_window no_loader_env = Some 7%N /\
   env_glad no_loader_env = 0%Z /\
   env_window no_window_env = None) /\
  (result (run 3 no_loader_env) = Some (-1)%Z /\
   existsb is_terminate (trace (run 3 no_loader_env)) = false /\
   glfw_live (final (run 3 no_loader_env)) = env_init no_loader_env) /\
  (result (run 3 no_window_env) = Some (-1)%Z /\
   (exists before, trace (run 3 no_window_env) = before ++ [GlfwTerminate]) /\
   glfw_live (final (run 3 no_window_env)) = false) /\
  (env_init no_loader_env = true ->
   glfw_live (final (run 3 no_loader_env)) <>
   glfw_live (final (run 3 no_window_env))).
Proof.
  split.
  - repeat split.
  - apply (C8_abort_paths_differ 3 no_loader_env no_window_env 7%N);
      reflexivity.
Defined.

(** C9: what [glfwInit] returns is never looked at.  Every run goes on to
    the three window hints and the window creation, and a run in which
    [glfwInit] answers differently makes the same calls and returns the
    same value. *)
Theorem C9_init_result_unchecked (fuel : nat) (e : Env) (b : bool) :
  (exists rest,
     trace (run fuel e) =
     [ GlfwInit;
       GlfwWindowHint GLFW_CONTEXT_VERSION_MAJOR (HintInt 3);
       GlfwWindowHint GLFW_CONTEXT_VERSION_MINOR (HintInt 3);
       GlfwWindowHint GLFW_OPENGL_PROFILE GLFW_OPENGL_CORE_PROFILE;
       GlfwCreateWindow 800 600 "LearnOpenGL" ] ++ rest) /\
  trace (run fuel (with_init b e)) = trace (run fuel e) /\
  result (run fuel (with_init b e)) = result (run fuel e).
Proof.
  split; [apply run_starts_with_startup_calls|].
  destruct (env_window e) as [window|] eqn:Hw.
  - destruct (Z.eq_dec (env_glad e) 0) as [Hg | Hg].
    + rewrite (run_loader_failure fuel e window Hw Hg).
      rewrite (run_loader_failure fuel (with_init b e) window Hw Hg).
      split; reflexivity.
    + rewrite (run_rendering fuel e window Hw Hg).
      rewrite (run_rendering fuel (with_init b e) window Hw Hg).
      cbv zeta. unfold trace, result, fst, snd.
      change (env_shaderProgram (with_init b e)) with (env_shaderProgram e).
      change (env_VAO (with_init b e)) with (env_VAO e).
      rewrite (frames_run_with_init b e fuel (at_loop_entry e window)
                 (at_loop_entry (with_init b e) window))
        by reflexivity.
      rewrite (iterations_with_init b window (env_shaderProgram e) (env_VAO e) e
                 (frames_run e fuel (at_loop_entry e window))
                 (at_loop_entry e window)
                 (at_loop_entry (with_init b e) window))
        by reflexivity.
      split; reflexivity.
  - rewrite (run_window_failure fuel e Hw).
    rewrite (run_window_failure fuel (with_init b e) Hw).
    split; reflexivity.
Qed.

(** ** The resize callback *)

(** C7: the resize callback forwards the width and height it is given to
    [glViewport], with the origin at (0, 0), and does nothing else: the
    library state is unchanged and no other call is made.  [main]
    registers it for the window it created, after which a resize found by
    [glfwPollEvents] reaches the viewport with exactly its size. *)
Theorem C7_resize_callback_forwards_size
  (window : GLFWwindow) (width height : Z) (e : Env) (s : Glfw) :
  framebuffer_size_callback window width height e s =
  (Some tt, s, [GlViewport 0 0 width height]) /\
  deliver (FramebufferResized width height) e
    (set_fbsize_callback window fn_framebuffer_size_callback s) =
  (Some tt, set_fbsize_callback window fn_framebuffer_size_callback s,
   [GlViewport 0 0 width height]) /\
  (forall fuel,
     fbsize_callback (final (run fuel e)) =
     match env_window e with
     | Some w => Some (w, fn_framebuffer_size_callback)
     | None => None
     end).
Proof.
  split; [reflexivity|]. split; [reflexivity|].
  intro fuel.
  destruct (env_window e) as [w|] eqn:Hw.
  - destruct (Z.eq_dec (env_glad e) 0) as [Hg | Hg].
    + rewrite (run_loader_failure fuel e w Hw Hg). reflexivity.
    + rewrite (run_rendering fuel e w Hw Hg). cbv zeta. unfold final, fst, snd.
      destruct (Nat.ltb (frames_run e fuel (at_loop_entry e w)) fuel);
        simpl; rewrite after_frames_callback; reflexivity.
  - rewrite (run_window_failure fuel e Hw). reflexivity.
Qed.

(** ** Shader setup *)

(** C3: a failed compilation or a failed link is reported and nothing
    more.  After each status query that answers 0 the program fetches the
    info log (at most 512 bytes) and prints its title line and the log on
    standard output; whatever the three statuses are, the next calls are
    the same: the shaders are released, the buffer and the vertex array
    are set up and the loop condition is evaluated.  The run never returns
    -1 from here. *)
Theorem C3_shader_failures_logged_not_fatal
  (fuel : nat) (e : Env) (window : GLFWwindow) :
  env_window e = Some window ->
  env_glad e <> 0%Z ->
  exists loop_and_shutdown,
    trace (run fuel e) =
    startup_calls ++ context_calls window ++
    [ GlCreateShader GL_VERTEX_SHADER;
      GlShaderSource (env_vertexShader e) 1 vertexShaderSource;
      GlCompileShader (env_vertexShader e);
      GlGetShaderiv (env_vertexShader e) GL_COMPILE_STATUS ] ++
    (if (env_vertexStatus e =? 0)%Z
     then [ GlGetShaderInfoLog (env_vertexShader e) 512;
            Cout ("ERROR::SHADER::VERTEX::COMPILATION_FAILED" ++ nl);
            Cout (env_vertexLog e); Endl ]
     else []) ++
    [ GlCreateShader GL_FRAGMENT_SHADER;
      GlShaderSource (env_fragmentShader e) 1 fragmentShaderSource;
      GlCompileShader (env_fragmentShader e);
      GlGetShaderiv (env_fragmentShader e) GL_COMPILE_STATUS ] ++
    (if (env_fragmentStatus e =? 0)%Z
     then [ GlGetShaderInfoLog (env_fragmentShader e) 512;
            Cout ("ERROR::SHADER::FRAGMENT::COMPILATION_FAILED" ++ nl);
            Cout (env_fragmentLog e); Endl ]
     else []) ++
    [ GlCreateProgram;
      GlAttachShader (env_shaderProgram e) (env_vertexShader e);
      GlAttachShader (env_shaderProgram e) (env_fragmentShader e);
      GlLinkProgram (env_shaderProgram e);
      GlGetProgramiv (env_shaderProgram e) GL_LINK_STATUS ] ++
    (if (env_linkStatus e =? 0)%Z
     then [ GlGetProgramInfoLog (env_shaderProgram e) 512;
            Cout ("ERROR::SHADER::PROGRAM::LINKING_FAILED" ++ nl);
            Cout (env_programLog e); Endl ]
     else []) ++
    shader_release_calls e ++ buffer_calls e ++ loop_and_shutdown /\
    (0 < fuel ->
     exists rest, loop_and_shutdown = GlfwWindowShouldClose window :: rest) /\
    (result (run fuel e) = Some 0%Z \/ result (run fuel e) = None).
Proof.
  intros Hw Hg.
  rewrite (run_rendering fuel e window Hw Hg). cbv zeta.
  unfold trace, result, fst, snd.
  exists (iterations window (env_shaderProgram e) (env_VAO e) e
            (frames_run e fuel (at_loop_entry e window)) (at_loop_entry e window)
          ++ (if Nat.ltb (frames_run e fuel (at_loop_entry e window)) fuel
              then GlfwWindowShouldClose window :: shutdown_calls e
              else [])).
  split; [|split].
  - unfold setup_calls, vertex_shader_calls, fragment_shader_calls, link_calls,
      report_calls.
    rewrite <- !app_assoc. reflexivity.
  - intro Hfuel. destruct fuel as [|fuel]; [lia|].
    cbn [frames_run at_loop_entry should_close iterations].
    eexists. reflexivity.
  - destruct (Nat.ltb (frames_run e fuel (at_loop_entry e window)) fuel);
      [left | right]; reflexivity.
Qed.

Lemma C3_witness :
  (env_window broken_shader_env = Some 7%N /\
   env_glad broken_shader_env <> 0%Z /\
   0 < 3) /\
  exists before rest,
    trace (run 3 broken_shader_env) =
    before ++
    [ GlGetProgramInfoLog 3%N 512;
      Cout ("ERROR::SHADER::PROGRAM::LINKING_FAILED" ++ nl);
      Cout "link failed"; Endl ] ++
    shader_release_calls broken_shader_env ++
    buffer_calls broken_shader_env ++
    GlfwWindowShouldClose 7%N :: rest.
Proof.
  split.
  - split; [reflexivity | split; [simpl; lia | lia]].
  - destruct (C3_shader_failures_logged_not_fatal 3 broken_shader_env 7%N
                eq_refl ltac:(simpl; lia))
      as (loop_and_shutdown & Htrace & Hloop & _).
    destruct (Hloop ltac:(lia)) as (rest & ->).
    exists (startup_calls ++ context_calls 7%N ++
            [ GlCreateShader GL_VERTEX_SHADER;
              GlShaderSource 1%N 1 vertexShaderSource;
              GlCompileShader 1%N;
              GlGetShaderiv 1%N GL_COMPILE_STATUS;
              GlCreateShader GL_FRAGMENT_SHADER;
              GlShaderSource 2%N 1 fragmentShaderSource;
              GlCompileShader 2%N;
              GlGetShaderiv 2%N GL_COMPILE_STATUS;
              GlGetShaderInfoLog 2%N 512;
              Cout ("ERROR::SHADER::FRAGMENT::COMPILATION_FAILED" ++ nl);
              Cout "0:5: syntax error"; Endl;
              GlCreateProgram;
              GlAttachShader 3%N 1%N;
              GlAttachShader 3%N 2%N;
              GlLinkProgram 3%N;
              GlGetProgramiv 3%N GL_LINK_STATUS ]), rest.
    exact Htrace.
Defined.

(** ** The render loop *)

(** C1: in a run that gets past the startup checks, the trace is the
    setup, then the loop iterations, then (once the loop has exited) the
    shutdown.  The number [n] of iterations is the number of frames the
    loop has to run: every iteration is entered with the close flag
    unset, and the loop stops short of the evaluations it is allowed only
    when it finds the flag set; [n] is also the number of key queries the
    run has made.  Every iteration is exactly: evaluate the loop
    condition, poll the escape key (asking the window to close if it is
    pressed), set the clear colour to (0.2, 0.3, 0.3, 1.0), clear the
    colour buffer, select the linked program and the vertex array, draw
    three vertices as triangles, swap buffers, poll events (during which
    the resize callback may run).  The clear colour is the same constant
    in every iteration. *)
Theorem C1_render_loop_iterations (fuel : nat) (e : Env) (window : GLFWwindow) :
  env_window e = Some window ->
  env_glad e <> 0%Z ->
  exists n,
    n <= fuel /\
    (forall i, i < n ->
       should_close (after_frames e i (at_loop_entry e window)) = false) /\
    (n < fuel ->
       should_close (after_frames e n (at_loop_entry e window)) = true) /\
    key_calls (final (run fuel e)) = n /\
    result (run fuel e) = (if Nat.ltb n fuel then Some 0%Z else None) /\
    trace (run fuel e) =
    (startup_calls ++ context_calls window ++ setup_calls e) ++
    concat
      (map
         (fun i =>
            [ GlfwWindowShouldClose window;
              GlfwGetKey window GLFW_KEY_ESCAPE ] ++
            (if is_press (env_key e i)
             then [GlfwSetWindowShouldClose window true]
             else []) ++
            [ GlClearColor 0.2 0.3 0.3 1.0;
              GlClear GL_COLOR_BUFFER_BIT;
              GlUseProgram (env_shaderProgram e);
              GlBindVertexArray (env_VAO e);
              GlDrawArrays GL_TRIANGLES 0 3;
              GlfwSwapBuffers window;
              GlfwPollEvents ] ++
            callback_calls (Some (window, fn_framebuffer_size_callback))
              (env_events e i))
         (seq 0 n)) ++
    (if Nat.ltb n fuel
     then GlfwWindowShouldClose window :: shutdown_calls e
     else []).
Proof.
  intros Hw Hg.
  exists (frames_run e fuel (at_loop_entry e window)).
  split; [apply frames_run_le|].
  split; [intros i Hi; apply frames_run_open with (fuel := fuel); exact Hi|].
  split; [apply frames_run_closed|].
  rewrite (run_rendering fuel e window Hw Hg). cbv zeta.
  unfold trace, result, final, fst, snd.
  split; [|split; [reflexivity|]].
  - destruct (Nat.ltb (frames_run e fuel (at_loop_entry e window)) fuel);
      cbn [set_live key_calls]; rewrite after_frames_key_calls; simpl; lia.
  - rewrite (iterations_indexed window (env_shaderProgram e) (env_VAO e) e
               (frames_run e fuel (at_loop_entry e window))
               (at_loop_entry e window) 0)
      by reflexivity.
    rewrite <- !app_assoc. reflexivity.
Qed.

Lemma C1_witness :
  (env_window example_env = Some 7%N /\ env_glad example_env <> 0%Z) /\
  exists n,
    n <= 5 /\
    (forall i, i < n ->
       should_close (after_frames example_env i (at_loop_entry example_env 7%N))
       = false) /\
    (n < 5 ->
       should_close (after_frames example_env n (at_loop_entry example_env 7%N))
       = true) /\
    key_calls (final (run 5 example_env)) = n /\
    result (run 5 example_env) = (if Nat.ltb n 5 then Some 0%Z else None) /\
    trace (run 5 example_env) =
    (startup_calls ++ context_calls 7%N ++ setup_calls example_env) ++
    concat
      (map
         (fun i =>
            [ GlfwWindowShouldClose 7%N;
              GlfwGetKey 7%N GLFW_KEY_ESCAPE ] ++
            (if is_press (env_key example_env i)
             then [GlfwSetWindowShouldClose 7%N true]
             else []) ++
            [ GlClearColor 0.2 0.3 0.3 1.0;
              GlClear GL_COLOR_BUFFER_BIT;
              GlUseProgram (env_shaderProgram example_env);
              GlBindVertexArray (env_VAO example_env);
              GlDrawArrays GL_TRIANGLES 0 3;
              GlfwSwapBuffers 7%N;
              GlfwPollEvents ] ++
            callback_calls (Some (7%N, fn_framebuffer_size_callback))
              (env_events example_env i))
         (seq 0 n)) ++
    (if Nat.ltb n 5
     then GlfwWindowShouldClose 7%N :: shutdown_calls example_env
     else []).
Proof.
  split.
  - split; [reflexivity | simpl; lia].
  - apply (C1_render_loop_iterations 5 example_env 7%N);
      [reflexivity | simpl; lia].
Defined.

(** The run of [example_env] has two iterations: the resize of the first
    frame reaches the viewport, the escape key of the second frame asks
    the window to close, and the frame is still drawn. *)
Example example_run :
  run 5 example_env =
  (Some 0%Z,
   {| glfw_live := false; should_close := true;
      fbsize_callback := Some (7%N, fn_framebuffer_size_callback);
      key_calls := 2; poll_calls := 2 |},
   startup_calls ++ context_calls 7%N ++ setup_calls example_env ++
   [ GlfwWindowShouldClose 7%N;
     GlfwGetKey 7%N GLFW_KEY_ESCAPE;
     GlClearColor 0.2 0.3 0.3 1.0; GlClear GL_COLOR_BUFFER_BIT;
     GlUseProgram 3%N; GlBindVertexArray 1%N;
     GlDrawArrays GL_TRIANGLES 0 3;
     GlfwSwapBuffers 7%N; GlfwPollEvents;
     GlViewport 0 0 640 480;
     GlfwWindowShouldClose 7%N;
     GlfwGetKey 7%N GLFW_KEY_ESCAPE; GlfwSetWindowShouldClose 7%N true;
     GlClearColor 0.2 0.3 0.3 1.0; GlClear GL_COLOR_BUFFER_BIT;
     GlUseProgram 3%N; GlBindVertexArray 1%N;
     GlDrawArrays GL_TRIANGLES 0 3;
     GlfwSwapBuffers 7%N; GlfwPollEvents;
     GlfwWindowShouldClose 7%N;
     GlDeleteVertexArrays 1 [1%N]; GlDeleteBuffers 1 [1%N];
     GlDeleteProgram 3%N; GlfwTerminate ]).
Proof. reflexivity. Qed.

(** C5: [processInput] asks the window to close exactly when the escape
    key is found pressed, and leaves the close flag as it was otherwise.
    The render loop of a run exits when and only when one evaluation of
    its condition finds the flag set; an escape press or a close request
    in frame [k] makes that happen as soon as the loop is given [k + 2]
    evaluations.  Once the loop has exited the vertex array, the buffer
    and the program are deleted and the windowing library is terminated;
    as long as it has not, none of that is done. *)
Theorem C5_escape_closes_window_and_loop_exits
  (fuel : nat) (e : Env) (window : GLFWwindow) :
  env_window e = Some window ->
  env_glad e <> 0%Z ->
  (forall s,
     (In (GlfwSetWindowShouldClose window true) (trace (processInput window e s))
      <-> env_key e (key_calls s) = GLFW_PRESS) /\
     should_close (final (processInput window e s)) =
     (should_close s || is_press (env_key e (key_calls s)))) /\
  (result (run fuel e) = Some 0%Z <->
   exists k, k < fuel /\
             should_close (after_frames e k (at_loop_entry e window)) = true) /\
  (forall k,
     is_press (env_key e k) || close_requested (env_events e k) = true ->
     k + 2 <= fuel ->
     result (run fuel e) = Some 0%Z) /\
  (result (run fuel e) = Some 0%Z ->
   (exists before,
      trace (run fuel e) =
      before ++
      [ GlfwWindowShouldClose window;
        GlDeleteVertexArrays 1 [env_VAO e];
        GlDeleteBuffers 1 [env_VBO e];
        GlDeleteProgram (env_shaderProgram e);
        GlfwTerminate ]) /\
   should_close (final (run fuel e)) = true /\
   glfw_live (final (run fuel e)) = false) /\
  (result (run fuel e) = None ->
   existsb is_terminate (trace (run fuel e)) = false /\
   existsb (destroys ProgramObject) (trace (run fuel e)) = false /\
   existsb (destroys BufferObject) (trace (run fuel e)) = false /\
   existsb (destroys VertexArrayObject) (trace (run fuel e)) = false).
Proof.
  intros Hw Hg.
  split; [|split; [|split; [|split]]].
  - intro s. rewrite processInput_run. unfold trace, final, input_calls, fst, snd.
    split; [|reflexivity].
    destruct (env_key e (key_calls s)); simpl; split; intro H;
      try discriminate; try reflexivity;
      try (destruct H as [H | []]; discriminate).
    right. left. reflexivity.
  - apply run_exits_iff; assumption.
  - intros k Hk Hfuel.
    apply (run_exits_iff fuel e window Hw Hg).
    exists (S k). split; [lia|].
    apply closing_sets_flag. rewrite closing_at_loop_entry. exact Hk.
  - rewrite (run_rendering fuel e window Hw Hg). cbv zeta.
    unfold result, trace, final, fst, snd.
    destruct (Nat.ltb_spec (frames_run e fuel (at_loop_entry e window)) fuel)
      as [Hlt | Hge]; [intros _ | discriminate].
    split; [|split].
    + eexists. rewrite !app_assoc. reflexivity.
    + simpl. apply frames_run_closed. exact Hlt.
    + reflexivity.
  - rewrite (run_rendering fuel e window Hw Hg). cbv zeta.
    unfold result, trace, fst, snd.
    destruct (Nat.ltb (frames_run e fuel (at_loop_entry e window)) fuel);
      [discriminate | intros _].
    rewrite !existsb_app.
    rewrite !iterations_existsb_none by (intros c H; loop_call_cases H).
    setup_cases e; repeat split.
Qed.

Lemma C5_witness :
  (env_window example_env = Some 7%N /\ env_glad example_env <> 0%Z) /\
  result (run 5 example_env) = Some 0%Z /\
  result (run 2 example_env) = None.
Proof.
  split.
  - split; [reflexivity | simpl; lia].
  - split.
    + apply (C5_escape_closes_window_and_loop_exits 5 example_env 7%N
               eq_refl ltac:(simpl; lia)) with (k := 1);
        [reflexivity | simpl; lia].
    + reflexivity.
Defined.

(** C10: when the escape key is found pressed in an iteration entered
    with the flag unset, the close request is followed by the whole rest
    of the body (clear colour, clear, program, vertex array, draw, swap,
    poll) and only then by the evaluation of the condition that ends the
    loop: exactly one draw follows the close request.  The body itself
    never evaluates the loop condition. *)
Theorem C10_frame_completes_after_escape
  (fuel : nat) (window : GLFWwindow) (shaderProgram VAO : GLuint)
  (e : Env) (s : Glfw) :
  should_close s = false ->
  env_key e (key_calls s) = GLFW_PRESS ->
  render_loop (S (S fuel)) window shaderProgram VAO e s =
  (Some tt, after_frame e s,
   [ GlfwWindowShouldClose window;
     GlfwGetKey window GLFW_KEY_ESCAPE;
     GlfwSetWindowShouldClose window true;
     GlClearColor 0.2 0.3 0.3 1.0;
     GlClear GL_COLOR_BUFFER_BIT;
     GlUseProgram shaderProgram;
     GlBindVertexArray VAO;
     GlDrawArrays GL_TRIANGLES 0 3;
     GlfwSwapBuffers window;
     GlfwPollEvents ] ++
   callback_calls (fbsize_callback s) (env_events e (poll_calls s)) ++
   [ GlfwWindowShouldClose window ]) /\
  should_close (after_frame e s) = true /\
  count is_draw
    (after_first is_set_close
       (trace (render_loop (S (S fuel)) window shaderProgram VAO e s))) = 1 /\
  existsb is_loop_test (trace (frame window shaderProgram VAO e s)) = false.
Proof.
  intros Hs Hkey.
  assert (Hflag : should_close (after_frame e s) = true).
  { simpl. unfold closing. rewrite Hkey. simpl. apply orb_true_r. }
  assert (Hrun :
    render_loop (S (S fuel)) window shaderProgram VAO e s =
    (Some tt, after_frame e s,
     [ GlfwWindowShouldClose window;
       GlfwGetKey window GLFW_KEY_ESCAPE;
       GlfwSetWindowShouldClose window true;
       GlClearColor 0.2 0.3 0.3 1.0;
       GlClear GL_COLOR_BUFFER_BIT;
       GlUseProgram shaderProgram;
       GlBindVertexArray VAO;
       GlDrawArrays GL_TRIANGLES 0 3;
       GlfwSwapBuffers window;
       GlfwPollEvents ] ++
     callback_calls (fbsize_callback s) (env_events e (poll_calls s)) ++
     [ GlfwWindowShouldClose window ])).
  { rewrite render_loop_step by exact Hs.
    rewrite render_loop_exit by exact Hflag.
    unfold frame_calls, input_calls. rewrite Hkey. reflexivity. }
  split; [exact Hrun|]. split; [exact Hflag|]. split.
  - rewrite Hrun. unfold trace, snd, count. simpl.
    rewrite filter_app, length_app.
    rewrite (filter_none is_draw (callback_calls _ _)).
    + reflexivity.
    + intros c Hc. apply callback_calls_viewport in Hc.
      destruct Hc as (width & height & ->). reflexivity.
  - rewrite frame_run. unfold trace, snd, frame_calls, input_calls.
    rewrite Hkey. simpl.
    apply existsb_none. intros c Hc. apply callback_calls_viewport in Hc.
    destruct Hc as (width & height & ->). reflexivity.
Qed.

Lemma C10_witness :
  (should_close example_second_frame = false /\
   env_key example_env (key_calls example_second_frame) = GLFW_PRESS) /\
  render_loop 2 7%N 3%N 1%N example_env example_second_frame =
  (Some tt, after_frame example_env example_second_frame,
   [ GlfwWindowShouldClose 7%N;
     GlfwGetKey 7%N GLFW_KEY_ESCAPE;
     GlfwSetWindowShouldClose 7%N true;
     GlClearColor 0.2 0.3 0.3 1.0;
     GlClear GL_COLOR_BUFFER_BIT;
     GlUseProgram 3%N;
     GlBindVertexArray 1%N;
     GlDrawArrays GL_TRIANGLES 0 3;
     GlfwSwapBuffers 7%N;
     GlfwPollEvents ] ++
   callback_calls (fbsize_callback example_second_frame)
     (env_events example_env (poll_calls example_second_frame)) ++
   [ GlfwWindowShouldClose 7%N ]).
Proof.
  split.
  - split; reflexivity.
  - apply (C10_frame_completes_after_escape 0 7%N 3%N 1%N example_env
             example_second_frame); reflexivity.
Defined.

(** ** The driver-owned handles *)

(** C4, as the data model words it, fails: in the run of [example_env]
    the two shader objects are destroyed during the setup, and the loop
    condition is evaluated after that. *)
Lemma C4_shaders_destroyed_before_loop :
  ~ lifecycle_as_specified (trace (run 5 example_env)).
Proof.
  intro H. destruct (H ShaderObject) as [_ [_ Hafter]].
  vm_compute in Hafter. discriminate.
Qed.

(** C4, amended: in every run that gets past the startup checks, whether
    its loop has exited or not, every handle is created once, at startup,
    and the two shader objects are destroyed once too, at startup: after
    the program is made current and before the buffer setup and the loop.
    The program, the buffer and the vertex array are destroyed once, at
    shutdown, after the last evaluation of the loop condition and with
    the names they were created with; as long as the loop has not exited
    they are not destroyed.  While the loop runs, the only object names
    handed to the driver are, in each of its [n] frames, the program and
    the vertex array as created, [n] being the number of frames the loop
    has to run: each is entered with the close flag unset, and the loop
    stops short of the evaluations it is allowed only at a set flag. *)
Theorem C4_handle_lifecycle (fuel : nat) (e : Env) (window : GLFWwindow) :
  env_window e = Some window ->
  env_glad e <> 0%Z ->
  (forall k, created_at_startup k (trace (run fuel e))) /\
  destroyed_at_startup ShaderObject (trace (run fuel e)) /\
  (result (run fuel e) = Some 0%Z ->
   destroyed_at_shutdown ProgramObject (trace (run fuel e)) /\
   destroyed_at_shutdown BufferObject (trace (run fuel e)) /\
   destroyed_at_shutdown VertexArrayObject (trace (run fuel e))) /\
  (result (run fuel e) = None ->
   count (destroys ProgramObject) (trace (run fuel e)) = 0 /\
   count (destroys BufferObject) (trace (run fuel e)) = 0 /\
   count (destroys VertexArrayObject) (trace (run fuel e)) = 0) /\
  filter is_create_or_destroy (trace (run fuel e)) =
  [ GlCreateShader GL_VERTEX_SHADER;
    GlCreateShader GL_FRAGMENT_SHADER;
    GlCreateProgram;
    GlDeleteShader (env_vertexShader e);
    GlDeleteShader (env_fragmentShader e);
    GlGenBuffers 1;
    GlGenVertexArrays 1 ] ++
  match result (run fuel e) with
  | Some _ =>
      [ GlDeleteVertexArrays 1 [env_VAO e];
        GlDeleteBuffers 1 [env_VBO e];
        GlDeleteProgram (env_shaderProgram e) ]
  | None => []
  end /\
  exists n,
    n <= fuel /\
    (forall i, i < n ->
       should_close (after_frames e i (at_loop_entry e window)) = false) /\
    (n < fuel ->
       should_close (after_frames e n (at_loop_entry e window)) = true) /\
    key_calls (final (run fuel e)) = n /\
    count is_draw (trace (run fuel e)) = n /\
    result (run fuel e) = (if Nat.ltb n fuel then Some 0%Z else None) /\
    filter names_object (trace (run fuel e)) =
    filter names_object (setup_calls e) ++
    concat (repeat [ GlUseProgram (env_shaderProgram e);
                     GlBindVertexArray (env_VAO e) ] n) ++
    (if Nat.ltb n fuel
     then [ GlDeleteVertexArrays 1 [env_VAO e];
            GlDeleteBuffers 1 [env_VBO e];
            GlDeleteProgram (env_shaderProgram e) ]
     else []).
Proof.
  intros Hw Hg.
  assert (Hdraws : forall m t,
            count is_draw
              (iterations window (env_shaderProgram e) (env_VAO e) e m t) = m).
  { induction m as [|m IH]; intro t; cbn [iterations].
    - reflexivity.
    - rewrite count_app, IH. unfold count, frame_calls, input_calls.
      destruct (is_press (env_key e (key_calls t))); simpl;
        rewrite (filter_none is_draw (callback_calls _ _))
          by (intros c Hc; apply callback_calls_viewport in Hc;
              destruct Hc as (width & height & ->); reflexivity);
        reflexivity. }
  rewrite (run_rendering fuel e window Hw Hg). cbv zeta.
  unfold result, trace, final, fst, snd.
  pose proof (frames_run_le e fuel (at_loop_entry e window)) as Hle.
  pose proof (frames_run_open e fuel (at_loop_entry e window)) as Hopen.
  pose proof (frames_run_closed e fuel (at_loop_entry e window)) as Hclosed.
  pose proof (after_frames_key_calls e
                (frames_run e fuel (at_loop_entry e window))
                (at_loop_entry e window)) as Hkeys.
  set (n := frames_run e fuel (at_loop_entry e window)) in *.
  set (s := at_loop_entry e window) in *.
  pose proof (iterations_names window (env_shaderProgram e) (env_VAO e) e n s)
    as Hnames.
  specialize (Hdraws n s).
  set (loop := iterations window (env_shaderProgram e) (env_VAO e) e n s) in *.
  assert (Hloop : forall p,
             (forall c, loop_call window (env_shaderProgram e) (env_VAO e) c ->
                        p c = false) ->
             filter p loop = [] /\ existsb p loop = false).
  { intros p Hp. split;
      [apply iterations_filter_none | apply iterations_existsb_none]; exact Hp. }
  assert (Hcreate : forall k, filter (creates k) loop = [] /\
                              existsb (creates k) loop = false).
  { intro k. apply Hloop. intros c H. destruct k; loop_call_cases H. }
  assert (Hdestroy : forall k, filter (destroys k) loop = [] /\
                               existsb (destroys k) loop = false).
  { intro k. apply Hloop. intros c H. destruct k; loop_call_cases H. }
  assert (Heither : filter is_create_or_destroy loop = []).
  { apply Hloop. intros c H. loop_call_cases H. }
  assert (Hshutdown : forall k,
            k <> ShaderObject ->
            Nat.ltb n fuel = true ->
            destroyed_at_shutdown k
              (startup_calls ++ context_calls window ++ setup_calls e ++
               loop ++ GlfwWindowShouldClose window :: shutdown_calls e)).
  { intros k Hk _. destruct (Hdestroy k) as [Hf Hx]. split.
    - unfold count. rewrite !filter_app, !length_app, Hf.
      destruct k; [contradiction Hk; reflexivity | | |];
        setup_cases e; reflexivity.
    - unfold never_after.
      rewrite (app_assoc startup_calls), (app_assoc (startup_calls ++ _)),
        (app_assoc ((startup_calls ++ _) ++ _)).
      rewrite after_first_skip.
      + destruct k; [contradiction Hk; reflexivity | | |]; reflexivity.
      + rewrite !existsb_app, Hx.
        destruct k; [contradiction Hk; reflexivity | | |];
          setup_cases e; reflexivity. }
  clearbody loop.
  split; [|split; [|split; [|split; [|split]]]].
  - (* created once, before the loop *)
    intro k. destruct (Hcreate k) as [Hf Hx]. split.
    + unfold count. rewrite !filter_app, !length_app, Hf.
      destruct (Nat.ltb n fuel); destruct k; setup_cases e; reflexivity.
    + unfold never_after.
      rewrite (app_assoc startup_calls), (app_assoc (startup_calls ++ _)).
      rewrite after_first_skip.
      * rewrite existsb_after_first; [reflexivity|].
        rewrite existsb_app, Hx.
        destruct (Nat.ltb n fuel); destruct k; reflexivity.
      * setup_cases e; reflexivity.
  - (* the shader objects: destroyed once, before the loop *)
    destruct (Hdestroy ShaderObject) as [Hf Hx]. split.
    + unfold count. rewrite !filter_app, !length_app, Hf.
      destruct (Nat.ltb n fuel); setup_cases e; reflexivity.
    + unfold never_after.
      rewrite (app_assoc startup_calls), (app_assoc (startup_calls ++ _)).
      rewrite after_first_skip.
      * rewrite existsb_after_first; [reflexivity|].
        rewrite existsb_app, Hx. destruct (Nat.ltb n fuel); reflexivity.
      * setup_cases e; reflexivity.
  - (* the program, the buffer, the vertex array: at shutdown *)
    destruct (Nat.ltb n fuel) eqn:Hltb; [intros _ | discriminate].
    repeat split; apply Hshutdown; try reflexivity; discriminate.
  - (* and not before the loop has exited *)
    destruct (Nat.ltb n fuel) eqn:Hltb; [discriminate | intros _].
    unfold count. rewrite !filter_app, !length_app.
    rewrite (proj1 (Hdestroy ProgramObject)),
      (proj1 (Hdestroy BufferObject)), (proj1 (Hdestroy VertexArrayObject)).
    setup_cases e; repeat split.
  - rewrite !filter_app, Heither.
    destruct (Nat.ltb n fuel); setup_cases e; reflexivity.
  - exists n.
    split; [exact Hle|]. split; [exact Hopen|]. split; [exact Hclosed|].
    split; [|split; [|split; [reflexivity|]]].
    + destruct (Nat.ltb n fuel); cbn [set_live key_calls];
        rewrite Hkeys; simpl; lia.
    + rewrite !count_app, Hdraws.
      destruct (Nat.ltb n fuel); setup_cases e; unfold count; simpl; lia.
    + rewrite !filter_app, Hnames.
      destruct (Nat.ltb n fuel); reflexivity.
Qed.

Lemma C4_witness :
  (env_window example_env = Some 7%N /\
   env_glad example_env <> 0%Z) /\
  (forall k, created_at_startup k (trace (run 5 example_env))) /\
  destroyed_at_startup ShaderObject (trace (run 5 example_env)) /\
  destroyed_at_shutdown ProgramObject (trace (run 5 example_env)) /\
  destroyed_at_shutdown BufferObject (trace (run 5 example_env)) /\
  destroyed_at_shutdown VertexArrayObject (trace (run 5 example_env)).
Proof.
  split.
  - split; [reflexivity | simpl; lia].
  - destruct (C4_handle_lifecycle 5 example_env 7%N eq_refl ltac:(simpl; lia))
      as (Hcreated & Hshader & Hshutdown & _).
    split; [exact Hcreated|]. split; [exact Hshader|].
    apply Hshutdown. reflexivity.
Defined.

(** * Further properties of [main] *)

(** ** Helper lemmas *)

Lemma filter_keeps (p : Call -> bool) (l : list Call) :
  (forall c, In c l -> p c = false) ->
  filter (fun c => negb (p c)) l = l.
Proof.
  induction l as [|c l IH]; intro H; simpl.
  - reflexivity.
  - rewrite (H c) by (left; reflexivity). simpl. f_equal.
    apply IH. intros c' Hc'. apply H. right. exact Hc'.
Qed.

Lemma iterations_filter_keeps (p : Call -> bool) (window : GLFWwindow)
  (shaderProgram VAO : GLuint) (e : Env) (n : nat) (s : Glfw) :
  (forall c, loop_call window shaderProgram VAO c -> p c = false) ->
  filter (fun c => negb (p c)) (iterations window shaderProgram VAO e n s) =
  iterations window shaderProgram VAO e n s.
Proof.
  intro H. apply filter_keeps. intros c Hc. apply H.
  eapply iterations_loop_call. exact Hc.
Qed.

(** The loop depends on the environment through the keys and the events
    only. *)
Section SameInputs.

Variables e e' : Env.
Hypothesis same_keys : forall i, env_key e' i = env_key e i.
Hypothesis same_events : forall i, env_events e' i = env_events e i.

Lemma after_frame_same_inputs (s : Glfw) : after_frame e' s = after_frame e s.
Proof.
  unfold after_frame, closing. rewrite same_keys, same_events. reflexivity.
Qed.

Lemma after_frames_same_inputs (n : nat) :
  forall s, after_frames e' n s = after_frames e n s.
Proof.
  induction n as [|n IH]; intro s; simpl.
  - reflexivity.
  - rewrite after_frame_same_inputs. apply IH.
Qed.

Lemma frames_run_same_inputs (fuel : nat) :
  forall s, frames_run e' fuel s = frames_run e fuel s.
Proof.
  induction fuel as [|fuel IH]; intro s; simpl.
  - reflexivity.
  - rewrite after_frame_same_inputs, IH. reflexivity.
Qed.

Lemma iterations_same_inputs (window : GLFWwindow) (shaderProgram VAO : GLuint)
  (n : nat) :
  forall s,
    iterations window shaderProgram VAO e' n s =
    iterations window shaderProgram VAO e n s.
Proof.
  induction n as [|n IH]; intro s; cbn [iterations].
  - reflexivity.
  - rewrite after_frame_same_inputs, IH.
    unfold frame_calls. rewrite same_keys, same_events. reflexivity.
Qed.

End SameInputs.

(** ** Standard output and the exit code *)

(** X1: the program is silent unless a check fails.  A run writes on
    standard output exactly when the window cannot be created, the loader
    fails, or one of the three status queries answers 0; and whatever it
    writes, it writes before the render loop starts. *)
Theorem X1_output_only_on_failure (fuel : nat) (e : Env) :
  (existsb is_output (trace (run fuel e)) = true <->
   env_window e = None \/ env_glad e = 0%Z \/
   env_vertexStatus e = 0%Z \/ env_fragmentStatus e = 0%Z \/
   env_linkStatus e = 0%Z) /\
  never_after is_loop_test is_output (trace (run fuel e)) = true.
Proof.
  destruct (env_window e) as [window|] eqn:Hw.
  - destruct (Z.eq_dec (env_glad e) 0) as [Hg | Hg].
    + rewrite (run_loader_failure fuel e window Hw Hg).
      split; [|reflexivity].
      split; [intros _; right; left; exact Hg | reflexivity].
    + rewrite (run_rendering fuel e window Hw Hg). cbv zeta. unfold trace, snd.
      split.
      * rewrite !existsb_app.
        rewrite iterations_existsb_none by (intros c H; loop_call_cases H).
        unfold setup_calls, vertex_shader_calls, fragment_shader_calls,
          link_calls, report_calls.
        destruct (Z.eqb_spec (env_vertexStatus e) 0),
          (Z.eqb_spec (env_fragmentStatus e) 0),
          (Z.eqb_spec (env_linkStatus e) 0),
          (Nat.ltb (frames_run e fuel (at_loop_entry e window)) fuel);
          simpl; split; intro H; try reflexivity; try tauto;
          try discriminate;
          destruct H as [H1 | [H2 | [H3 | [H4 | H5]]]];
          try discriminate; contradiction.
      * unfold never_after.
        rewrite (app_assoc startup_calls), (app_assoc (startup_calls ++ _)).
        rewrite after_first_skip by (setup_cases e; reflexivity).
        rewrite existsb_after_first; [reflexivity|].
        rewrite existsb_app.
        rewrite iterations_existsb_none by (intros c H; loop_call_cases H).
        destruct (Nat.ltb (frames_run e fuel (at_loop_entry e window)) fuel);
          reflexivity.
  - rewrite (run_window_failure fuel e Hw).
    split; [|reflexivity].
    split; [intros _; left; reflexivity | reflexivity].
Qed.

(** X2: [main] returns -1 exactly when the window cannot be created or
    the loader fails, and otherwise 0 once the loop has exited, whatever
    the shader compiler and the linker answered; it returns nothing
    else. *)
Theorem X2_exit_code (fuel : nat) (e : Env) :
  (result (run fuel e) = Some (-1)%Z <->
   env_window e = None \/ env_glad e = 0%Z) /\
  (forall code,
     result (run fuel e) = Some code -> code = 0%Z \/ code = (-1)%Z) /\
  (result (run fuel (with_statuses 0 0 0 e)) = result (run fuel e)).
Proof.
  destruct (env_window e) as [window|] eqn:Hw.
  - destruct (Z.eq_dec (env_glad e) 0) as [Hg | Hg].
    + rewrite (run_loader_failure fuel e window Hw Hg).
      rewrite (run_loader_failure fuel (with_statuses 0 0 0 e) window Hw Hg).
      unfold result, fst.
      split; [split; [|reflexivity] | split; [|reflexivity]].
      * intros _. right. exact Hg.
      * intros code H. injection H as <-. right. reflexivity.
    + rewrite (run_rendering fuel e window Hw Hg).
      rewrite (run_rendering fuel (with_statuses 0 0 0 e) window Hw Hg).
      cbv zeta. unfold result, fst.
      rewrite (frames_run_same_inputs e (with_statuses 0 0 0 e))
        by reflexivity.
      change (at_loop_entry (with_statuses 0 0 0 e) window)
        with (at_loop_entry e window).
      destruct (Nat.ltb (frames_run e fuel (at_loop_entry e window)) fuel).
      * split; [split; [discriminate|] | split; [|reflexivity]].
        -- intros [H | H]; [discriminate | contradiction].
        -- intros code H. injection H as <-. left. reflexivity.
      * split; [split; [discriminate|] | split; [|reflexivity]].
        -- intros [H | H]; [discriminate | contradiction].
        -- intros code H. discriminate.
  - rewrite (run_window_failure fuel e Hw).
    rewrite (run_window_failure fuel (with_statuses 0 0 0 e) Hw).
    unfold result, fst.
    split; [split; [|reflexivity] | split; [|reflexivity]].
    + intros _. left. reflexivity.
    + intros code H. injection H as <-. right. reflexivity.
Qed.

(** X3: reporting a failed compilation or link adds calls and changes
    nothing else.  Leaving the info-log fetches and the prints out of a
    run that got past the startup checks gives the run in which all three
    statuses are 1, with the same exit code and the same final library
    state. *)
Theorem X3_reports_are_additive (fuel : nat) (e : Env) (window : GLFWwindow) :
  env_window e = Some window ->
  env_glad e <> 0%Z ->
  filter (fun c => negb (is_report c)) (trace (run fuel e)) =
  trace (run fuel (with_statuses 1 1 1 e)) /\
  result (run fuel e) = result (run fuel (with_statuses 1 1 1 e)) /\
  final (run fuel e) = final (run fuel (with_statuses 1 1 1 e)).
Proof.
  intros Hw Hg.
  rewrite (run_rendering fuel e window Hw Hg).
  rewrite (run_rendering fuel (with_statuses 1 1 1 e) window Hw Hg).
  cbv zeta. unfold trace, result, final, fst, snd.
  rewrite (frames_run_same_inputs e (with_statuses 1 1 1 e)) by reflexivity.
  rewrite (after_frames_same_inputs e (with_statuses 1 1 1 e)) by reflexivity.
  rewrite (iterations_same_inputs e (with_statuses 1 1 1 e)) by reflexivity.
  change (at_loop_entry (with_statuses 1 1 1 e) window)
    with (at_loop_entry e window).
  split; [|split; reflexivity].
  rewrite !filter_app.
  rewrite iterations_filter_keeps by (intros c H; loop_call_cases H).
  destruct (Nat.ltb (frames_run e fuel (at_loop_entry e window)) fuel);
    setup_cases e; reflexivity.
Qed.

Lemma X3_witness :
  (env_window broken_shader_env = Some 7%N /\
   env_glad broken_shader_env <> 0%Z) /\
  filter (fun c => negb (is_report c)) (trace (run 3 broken_shader_env)) =
  trace (run 3 (with_statuses 1 1 1 broken_shader_env)) /\
  result (run 3 broken_shader_env) =
  result (run 3 (with_statuses 1 1 1 broken_shader_env)) /\
  final (run 3 broken_shader_env) =
  final (run 3 (with_statuses 1 1 1 broken_shader_env)).
Proof.
  split.
  - split; [reflexivity | simpl; lia].
  - apply (X3_reports_are_additive 3 broken_shader_env 7%N);
      [reflexivity | simpl; lia].
Defined.

(** ** Order of the calls *)

(** X4: the driver is called only while it can be.  No driver function
    is called before [gladLoadGLLoader], which itself comes after the
    context has been made current; and [glfwTerminate], when it is
    called, is the last call of the run, so it is called at most once and
    nothing uses the libraries after it. *)
Theorem X4_driver_calls_between_load_and_terminate (fuel : nat) (e : Env) :
  existsb is_gl_call (before_first is_loader (trace (run fuel e))) = false /\
  existsb is_loader (before_first is_make_current (trace (run fuel e))) = false /\
  never_after is_terminate any_call (trace (run fuel e)) = true /\
  count is_terminate (trace (run fuel e)) <= 1.
Proof.
  destruct (env_window e) as [window|] eqn:Hw.
  - destruct (Z.eq_dec (env_glad e) 0) as [Hg | Hg].
    + rewrite (run_loader_failure fuel e window Hw Hg).
      repeat split. unfold count. simpl. lia.
    + rewrite (run_rendering fuel e window Hw Hg). cbv zeta. unfold trace, snd.
      set (loop := iterations window (env_shaderProgram e) (env_VAO e) e
                     (frames_run e fuel (at_loop_entry e window))
                     (at_loop_entry e window)).
      assert (Hloop : filter is_terminate loop = [] /\
                      existsb is_terminate loop = false).
      { split; [apply iterations_filter_none | apply iterations_existsb_none];
          intros c H; loop_call_cases H. }
      destruct Hloop as [Hf Hx].
      split; [reflexivity|]. split; [reflexivity|]. split.
      * unfold never_after.
        rewrite (app_assoc startup_calls), (app_assoc (startup_calls ++ _)),
          (app_assoc ((startup_calls ++ _) ++ _)).
        rewrite after_first_skip
          by (rewrite !existsb_app, Hx; setup_cases e; reflexivity).
        destruct (Nat.ltb (frames_run e fuel (at_loop_entry e window)) fuel);
          reflexivity.
      * unfold count. rewrite !filter_app, !length_app, Hf.
        destruct (Nat.ltb (frames_run e fuel (at_loop_entry e window)) fuel);
          setup_cases e; simpl; lia.
  - rewrite (run_window_failure fuel e Hw).
    repeat split. unfold count. simpl. lia.
Qed.

(** X5: no object is used after it has been destroyed.  In every run,
    once a shader object has been deleted no later call sets a source,
    compiles, queries or attaches a shader; once the program, the buffer
    or the vertex array has been deleted no later call selects it, works
    on it or draws. *)
Theorem X5_no_use_after_destroy (fuel : nat) (e : Env) (k : HandleClass) :
  never_after (destroys k) (uses k) (trace (run fuel e)) = true.
Proof.
  destruct (env_window e) as [window|] eqn:Hw.
  - destruct (Z.eq_dec (env_glad e) 0) as [Hg | Hg].
    + rewrite (run_loader_failure fuel e window Hw Hg). destruct k; reflexivity.
    + rewrite (run_rendering fuel e window Hw Hg). cbv zeta. unfold trace, snd.
      set (loop := iterations window (env_shaderProgram e) (env_VAO e) e
                     (frames_run e fuel (at_loop_entry e window))
                     (at_loop_entry e window)).
      assert (Hdestroy : existsb (destroys k) loop = false).
      { apply iterations_existsb_none. intros c H. destruct k; loop_call_cases H. }
      unfold never_after.
      destruct k.
      * (* shaders: destroyed in the setup, never named afterwards *)
        assert (Huse : existsb (uses ShaderObject) loop = false).
        { apply iterations_existsb_none. intros c H. loop_call_cases H. }
        clearbody loop.
        setup_cases e; cbn -[Nat.ltb];
          rewrite existsb_app, Huse;
          destruct (Nat.ltb (frames_run e fuel (at_loop_entry e window)) fuel);
          reflexivity.
      * rewrite (app_assoc startup_calls), (app_assoc (startup_calls ++ _)),
          (app_assoc ((startup_calls ++ _) ++ _)).
        rewrite after_first_skip
          by (rewrite !existsb_app, Hdestroy; setup_cases e; reflexivity).
        destruct (Nat.ltb (frames_run e fuel (at_loop_entry e window)) fuel);
          reflexivity.
      * rewrite (app_assoc startup_calls), (app_assoc (startup_calls ++ _)),
          (app_assoc ((startup_calls ++ _) ++ _)).
        rewrite after_first_skip
          by (rewrite !existsb_app, Hdestroy; setup_cases e; reflexivity).
        destruct (Nat.ltb (frames_run e fuel (at_loop_entry e window)) fuel);
          reflexivity.
      * rewrite (app_assoc startup_calls), (app_assoc (startup_calls ++ _)),
          (app_assoc ((startup_calls ++ _) ++ _)).
        rewrite after_first_skip
          by (rewrite !existsb_app, Hdestroy; setup_cases e; reflexivity).
        destruct (Nat.ltb (frames_run e fuel (at_loop_entry e window)) fuel);
          reflexivity.
  - rewrite (run_window_failure fuel e Hw). destruct k; reflexivity.
Qed.

(** ** The objects selected when they are needed *)

Lemma holds_at_each_app (want : Call -> Bindings -> bool) (a rest : list Call) :
  forall b,
    holds_at_each want b (a ++ rest) =
    holds_at_each want b a && holds_at_each want (fold_left bind_step a b) rest.
Proof.
  induction a as [|c a IH]; intro b; simpl.
  - reflexivity.
  - rewrite IH, andb_assoc. reflexivity.
Qed.

Lemma holds_at_each_split (want : Call -> Bindings -> bool) (pre : list Call) :
  forall b c post,
    holds_at_each want b (pre ++ c :: post) = true ->
    want c (fold_left bind_step pre b) = true.
Proof.
  induction pre as [|c' pre IH]; intros b c post H; simpl in H |- *.
  - apply andb_true_iff in H. tauto.
  - apply andb_true_iff in H. destruct H as [_ H]. eapply IH. exact H.
Qed.

Lemma callback_calls_well_bound (e : Env) (cb : option (GLFWwindow * FnPtr))
  (evs : list Event) (b : Bindings) :
  holds_at_each (well_bound e) b (callback_calls cb evs) = true /\
  fold_left bind_step (callback_calls cb evs) b = b.
Proof.
  unfold callback_calls.
  induction evs as [|ev evs IH]; simpl.
  - split; reflexivity.
  - destruct ev as [width height| |]; simpl; try exact IH.
    destruct cb as [[w f]|]; simpl; try exact IH.
    destruct f. simpl. exact IH.
Qed.

Lemma iterations_well_bound (e : Env) (window : GLFWwindow) (n : nat) :
  forall s b,
    current_program b = env_shaderProgram e ->
    array_buffer b = 0%N ->
    holds_at_each (well_bound e) b
      (iterations window (env_shaderProgram e) (env_VAO e) e n s) = true /\
    current_program
      (fold_left bind_step
         (iterations window (env_shaderProgram e) (env_VAO e) e n s) b) =
    env_shaderProgram e /\
    array_buffer
      (fold_left bind_step
         (iterations window (env_shaderProgram e) (env_VAO e) e n s) b) = 0%N.
Proof.
  induction n as [|n IH]; intros s b Hp Hb; cbn [iterations].
  - simpl. auto.
  - rewrite holds_at_each_app, fold_left_app.
    set (frame_end :=
           fold_left bind_step
             (GlfwWindowShouldClose window
              :: frame_calls window (env_shaderProgram e) (env_VAO e) e s) b).
    assert (Hframe :
      holds_at_each (well_bound e) b
        (GlfwWindowShouldClose window
         :: frame_calls window (env_shaderProgram e) (env_VAO e) e s) = true /\
      current_program frame_end = env_shaderProgram e /\
      array_buffer frame_end = 0%N).
    { subst frame_end. unfold frame_calls, input_calls, render_calls.
      destruct (is_press (env_key e (key_calls s)));
        cbn [app holds_at_each fold_left bind_step well_bound bound_for_setup
               bound_for_draw andb current_program array_buffer vertex_array];
        rewrite !N.eqb_refl, Hb;
        destruct (callback_calls_well_bound e (fbsize_callback s)
                    (env_events e (poll_calls s))
                    {| current_program := env_shaderProgram e;
                       array_buffer := 0%N;
                       vertex_array := env_VAO e |}) as [Hc ->];
        rewrite Hc; repeat split. }
    destruct Hframe as (Hh & Hp' & Hb').
    destruct (IH (after_frame e s) frame_end Hp' Hb') as (IH1 & IH2 & IH3).
    rewrite Hh, IH1. auto.
Qed.

Lemma run_well_bound (fuel : nat) (e : Env) :
  holds_at_each (well_bound e) unbound (trace (run fuel e)) = true.
Proof.
  destruct (env_window e) as [window|] eqn:Hw.
  - destruct (Z.eq_dec (env_glad e) 0) as [Hg | Hg].
    + rewrite (run_loader_failure fuel e window Hw Hg). reflexivity.
    + rewrite (run_rendering fuel e window Hw Hg). cbv zeta. unfold trace, snd.
      rewrite (app_assoc startup_calls), (app_assoc (startup_calls ++ _)).
      rewrite holds_at_each_app.
      assert (Hsetup :
        holds_at_each (well_bound e) unbound
          ((startup_calls ++ context_calls window) ++ setup_calls e) = true /\
        fold_left bind_step
          ((startup_calls ++ context_calls window) ++ setup_calls e) unbound =
        {| current_program := env_shaderProgram e;
           array_buffer := 0%N;
           vertex_array := 0%N |}).
      { setup_cases e; cbn -[N.eqb]; unfold well_bound; cbn -[N.eqb];
          rewrite !N.eqb_refl; split; reflexivity. }
      destruct Hsetup as [-> ->]. rewrite andb_true_l.
      rewrite holds_at_each_app.
      destruct (iterations_well_bound e window
                  (frames_run e fuel (at_loop_entry e window))
                  (at_loop_entry e window)
                  {| current_program := env_shaderProgram e;
                     array_buffer := 0%N;
                     vertex_array := 0%N |} eq_refl eq_refl) as (-> & _ & _).
      destruct (Nat.ltb (frames_run e fuel (at_loop_entry e window)) fuel);
        reflexivity.
  - rewrite (run_window_failure fuel e Hw). reflexivity.
Qed.

(** X6: the buffer and the vertex array are set up while they are
    selected.  In every run, when [glBufferData] uploads the vertices the
    array buffer selected by the most recent [glBindBuffer] is the buffer
    generated in this run; when [glVertexAttribPointer] and
    [glEnableVertexAttribArray] describe attribute 0 the vertex array
    selected is the one generated in this run, and the buffer is still
    selected when the pointer is recorded. *)
Theorem X6_setup_on_selected_objects
  (fuel : nat) (e : Env) (pre : list Call) (c : Call) (post : list Call) :
  trace (run fuel e) = pre ++ c :: post ->
  bound_for_setup e c (bindings_after pre) = true.
Proof.
  intro H. pose proof (run_well_bound fuel e) as Hall. rewrite H in Hall.
  apply holds_at_each_split in Hall. unfold well_bound in Hall.
  apply andb_true_iff in Hall. exact (proj1 Hall).
Qed.

Lemma X6_witness :
  trace (run 5 example_env) =
  firstn 26 (trace (run 5 example_env)) ++
  GlBufferData GL_ARRAY_BUFFER 36 vertices GL_STATIC_DRAW ::
  skipn 27 (trace (run 5 example_env)) /\
  bound_for_setup example_env
    (GlBufferData GL_ARRAY_BUFFER 36 vertices GL_STATIC_DRAW)
    (bindings_after (firstn 26 (trace (run 5 example_env)))) = true.
Proof.
  split.
  - reflexivity.
  - apply (X6_setup_on_selected_objects 5 example_env
             (firstn 26 (trace (run 5 example_env)))
             (GlBufferData GL_ARRAY_BUFFER 36 vertices GL_STATIC_DRAW)
             (skipn 27 (trace (run 5 example_env)))).
    reflexivity.
Defined.

(** X7: every draw finds what it needs selected.  In every run and every
    frame, when [glDrawArrays] is called the program in use is the one
    created in this run, the vertex array selected is the one generated
    in this run, and no array buffer is selected: the draw reads the
    vertices through the vertex array alone, the buffer having been
    unbound at the end of the setup and never bound again. *)
Theorem X7_draw_on_selected_objects
  (fuel : nat) (e : Env) (pre : list Call) (c : Call) (post : list Call) :
  trace (run fuel e) = pre ++ c :: post ->
  bound_for_draw e c (bindings_after pre) = true.
Proof.
  intro H. pose proof (run_well_bound fuel e) as Hall. rewrite H in Hall.
  apply holds_at_each_split in Hall. unfold well_bound in Hall.
  apply andb_true_iff in Hall. exact (proj2 Hall).
Qed.

Lemma X7_witness :
  trace (run 5 example_env) =
  firstn 39 (trace (run 5 example_env)) ++
  GlDrawArrays GL_TRIANGLES 0 3 ::
  skipn 40 (trace (run 5 example_env)) /\
  bound_for_draw example_env (GlDrawArrays GL_TRIANGLES 0 3)
    (bindings_after (firstn 39 (trace (run 5 example_env)))) = true.
Proof.
  split.
  - reflexivity.
  - apply (X7_draw_on_selected_objects 5 example_env
             (firstn 39 (trace (run 5 example_env)))
             (GlDrawArrays GL_TRIANGLES 0 3)
             (skipn 40 (trace (run 5 example_env)))).
    reflexivity.
Defined.

(** ** Counting frames *)

Lemma iterations_count (q : Call -> bool) (window : GLFWwindow)
  (shaderProgram VAO : GLuint) (e : Env) :
  (forall s,
     count q (GlfwWindowShouldClose window
              :: frame_calls window shaderProgram VAO e s) = 1) ->
  forall n s, count q (iterations window shaderProgram VAO e n s) = n.
Proof.
  intros H n. induction n as [|n IH]; intro s; cbn [iterations].
  - reflexivity.
  - rewrite count_app, H, IH. reflexivity.
Qed.

(** One call of each of these kinds per pass through the loop. *)
Ltac once_per_frame :=
  let s := fresh "s" in
  let c := fresh "c" in
  let Hc := fresh "Hc" in
  let width := fresh "width" in
  let height := fresh "height" in
  intro s; unfold count, frame_calls, input_calls, render_calls;
  destruct (is_press (env_key _ (key_calls s))); simpl;
  rewrite (filter_none _ (callback_calls _ _))
    by (intros c Hc; apply callback_calls_viewport in Hc;
        destruct Hc as (width & height & ->); reflexivity);
  reflexivity.

Lemma iterations_counts (window : GLFWwindow) (shaderProgram VAO : GLuint)
  (e : Env) (n : nat) (s : Glfw) :
  count is_loop_test (iterations window shaderProgram VAO e n s) = n /\
  count is_key_query (iterations window shaderProgram VAO e n s) = n /\
  count is_draw (iterations window shaderProgram VAO e n s) = n /\
  count is_swap (iterations window shaderProgram VAO e n s) = n /\
  count is_poll (iterations window shaderProgram VAO e n s) = n.
Proof.
  repeat split; apply iterations_count; once_per_frame.
Qed.

Lemma frames_at_exit (fuel : nat) (e : Env) (window : GLFWwindow) :
  let n := frames_run e fuel (at_loop_entry e window) in
  key_calls (after_frames e n (at_loop_entry e window)) = n /\
  poll_calls (after_frames e n (at_loop_entry e window)) = n.
Proof.
  cbv zeta. rewrite after_frames_key_calls, after_frames_poll_calls.
  simpl. lia.
Qed.

(** X8: the calls of the loop go together, frame by frame.  In every run
    the numbers of escape-key queries, of draws, of buffer swaps and of
    event polls are equal: each is the number of frames, which never
    exceeds the number of evaluations of the loop condition.  When the
    run returns, the condition has been evaluated once more than frames
    were drawn; while it has not returned, once per frame. *)
Theorem X8_frame_accounting (fuel : nat) (e : Env) :
  count is_key_query (trace (run fuel e)) = key_calls (final (run fuel e)) /\
  count is_draw (trace (run fuel e)) = key_calls (final (run fuel e)) /\
  count is_swap (trace (run fuel e)) = key_calls (final (run fuel e)) /\
  count is_poll (trace (run fuel e)) = key_calls (final (run fuel e)) /\
  poll_calls (final (run fuel e)) = key_calls (final (run fuel e)) /\
  key_calls (final (run fuel e)) <= fuel /\
  (result (run fuel e) = Some 0%Z ->
   count is_loop_test (trace (run fuel e)) =
   S (key_calls (final (run fuel e)))) /\
  (result (run fuel e) = None ->
   count is_loop_test (trace (run fuel e)) = fuel /\
   key_calls (final (run fuel e)) = fuel).
Proof.
  destruct (env_window e) as [window|] eqn:Hw.
  - destruct (Z.eq_dec (env_glad e) 0) as [Hg | Hg].
    + rewrite (run_loader_failure fuel e window Hw Hg).
      unfold result, final, trace, fst, snd. simpl.
      repeat split; try reflexivity; try lia; discriminate.
    + rewrite (run_rendering fuel e window Hw Hg). cbv zeta.
      unfold result, final, trace, fst, snd.
      pose proof (frames_at_exit fuel e window) as Hexit. cbv zeta in Hexit.
      destruct Hexit as [Hkeys Hpolls].
      pose proof (frames_run_le e fuel (at_loop_entry e window)) as Hle.
      destruct (iterations_counts window (env_shaderProgram e) (env_VAO e) e
                  (frames_run e fuel (at_loop_entry e window))
                  (at_loop_entry e window))
        as (Htest & Hkey & Hdraw & Hswap & Hpoll).
      rewrite !count_app, Htest, Hkey, Hdraw, Hswap, Hpoll.
      assert (Hsetup :
        count is_loop_test (setup_calls e) = 0 /\
        count is_key_query (setup_calls e) = 0 /\
        count is_draw (setup_calls e) = 0 /\
        count is_swap (setup_calls e) = 0 /\
        count is_poll (setup_calls e) = 0).
      { setup_cases e; repeat split. }
      destruct Hsetup as (-> & -> & -> & -> & ->).
      destruct (Nat.ltb_spec (frames_run e fuel (at_loop_entry e window)) fuel)
        as [Hlt | Hge]; cbn [set_live key_calls poll_calls];
        rewrite ?Hkeys, ?Hpolls; unfold count; simpl;
        repeat split; try lia; try discriminate; intros _; lia.
  - rewrite (run_window_failure fuel e Hw).
    unfold result, final, trace, fst, snd. simpl.
    repeat split; try reflexivity; try lia; discriminate.
Qed.

(** ** Resizes and the window *)

Lemma resize_calls_app (a b : list Event) :
  resize_calls (a ++ b) = resize_calls a ++ resize_calls b.
Proof. unfold resize_calls. apply flat_map_app. Qed.

Lemma callback_calls_viewports (window : GLFWwindow) (evs : list Event) :
  filter is_viewport
    (callback_calls (Some (window, fn_framebuffer_size_callback)) evs) =
  resize_calls evs.
Proof.
  induction evs as [|ev evs IH]; simpl.
  - reflexivity.
  - rewrite filter_app. cbn [callback_calls] in IH. rewrite IH.
    destruct ev; reflexivity.
Qed.

Lemma iterations_viewports (window : GLFWwindow) (shaderProgram VAO : GLuint)
  (e : Env) (n : nat) :
  forall s,
    fbsize_callback s = Some (window, fn_framebuffer_size_callback) ->
    filter is_viewport (iterations window shaderProgram VAO e n s) =
    resize_calls (concat (map (env_events e) (seq (poll_calls s) n))).
Proof.
  induction n as [|n IH]; intros s Hcb; cbn [iterations seq map concat].
  - reflexivity.
  - rewrite filter_app, resize_calls_app.
    rewrite (IH (after_frame e s)) by exact Hcb.
    f_equal.
    unfold frame_calls, input_calls, render_calls. rewrite Hcb.
    destruct (is_press (env_key e (key_calls s))); simpl;
      apply callback_calls_viewports.
Qed.

(** X9: the viewport follows the resizes and nothing else.  The
    [glViewport] calls of a run are, in order, one call
    [glViewport(0, 0, width, height)] for each resize event found by the
    event polls of the run: no resize is dropped, because the callback is
    registered before the first poll, and [main] never sets the viewport
    on its own, not even at startup. *)
Theorem X9_viewport_follows_resizes (fuel : nat) (e : Env) :
  filter is_viewport (trace (run fuel e)) =
  resize_calls (events_polled e (poll_calls (final (run fuel e)))).
Proof.
  unfold events_polled.
  destruct (env_window e) as [window|] eqn:Hw.
  - destruct (Z.eq_dec (env_glad e) 0) as [Hg | Hg].
    + rewrite (run_loader_failure fuel e window Hw Hg). reflexivity.
    + rewrite (run_rendering fuel e window Hw Hg). cbv zeta.
      unfold final, trace, fst, snd.
      pose proof (frames_at_exit fuel e window) as Hexit. cbv zeta in Hexit.
      destruct Hexit as [_ Hpolls].
      rewrite !filter_app.
      rewrite (iterations_viewports window (env_shaderProgram e) (env_VAO e) e
                 (frames_run e fuel (at_loop_entry e window))
                 (at_loop_entry e window) eq_refl).
      assert (Hsetup : filter is_viewport (setup_calls e) = []).
      { setup_cases e; reflexivity. }
      rewrite Hsetup.
      destruct (Nat.ltb (frames_run e fuel (at_loop_entry e window)) fuel);
        cbn [set_live poll_calls]; rewrite Hpolls; simpl;
        rewrite ?app_nil_r; reflexivity.
  - rewrite (run_window_failure fuel e Hw). reflexivity.
Qed.

(** X10: one window, never reopened.  Every call of a run that takes a
    window is made on the window [glfwCreateWindow] returned (and when it
    returned none, no such call is made); and the only value the program
    ever gives the close flag is [true]: it never clears a close
    request. *)
Theorem X10_calls_on_created_window (fuel : nat) (e : Env) (c : Call) :
  In c (trace (run fuel e)) ->
  match env_window e with
  | Some window => on_window window c = true
  | None => window_of c = None
  end.
Proof.
  destruct (env_window e) as [window|] eqn:Hw.
  - destruct (Z.eq_dec (env_glad e) 0) as [Hg | Hg].
    + rewrite (run_loader_failure fuel e window Hw Hg). unfold trace, snd.
      simpl. intro Hc.
      repeat (destruct Hc as [<- | Hc];
              [unfold on_window; simpl; rewrite ?N.eqb_refl; reflexivity|]).
      contradiction.
    + rewrite (run_rendering fuel e window Hw Hg). cbv zeta. unfold trace, snd.
      intro Hc.
      apply in_app_or in Hc. destruct Hc as [Hc | Hc].
      { simpl in Hc.
        repeat (destruct Hc as [<- | Hc]; [reflexivity|]). contradiction. }
      apply in_app_or in Hc. destruct Hc as [Hc | Hc].
      { simpl in Hc.
        repeat (destruct Hc as [<- | Hc];
                [unfold on_window; simpl; rewrite ?N.eqb_refl; reflexivity|]).
        contradiction. }
      apply in_app_or in Hc. destruct Hc as [Hc | Hc].
      { revert Hc. setup_cases e; simpl; intro Hc;
          repeat (destruct Hc as [<- | Hc]; [reflexivity|]); contradiction. }
      apply in_app_or in Hc. destruct Hc as [Hc | Hc].
      { apply iterations_loop_call in Hc.
        destruct Hc as [Hc | (width & height & ->)]; [|reflexivity].
        simpl in Hc.
        repeat (destruct Hc as [<- | Hc];
                [unfold on_window; simpl; rewrite ?N.eqb_refl; reflexivity|]).
        contradiction. }
      destruct (Nat.ltb (frames_run e fuel (at_loop_entry e window)) fuel);
        simpl in Hc; [|contradiction].
      repeat (destruct Hc as [<- | Hc];
              [unfold on_window; simpl; rewrite ?N.eqb_refl; reflexivity|]).
      contradiction.
  - rewrite (run_window_failure fuel e Hw). unfold trace, snd.
    simpl. intro Hc.
    repeat (destruct Hc as [<- | Hc]; [reflexivity|]). contradiction.
Qed.

Lemma X10_witness :
  In (GlfwMakeContextCurrent 7%N) (trace (run 1 example_env)) /\
  on_window 7%N (GlfwMakeContextCurrent 7%N) = true.
Proof.
  split.
  - simpl. tauto.
  - apply (X10_calls_on_created_window 1 example_env
             (GlfwMakeContextCurrent 7%N)).
    simpl. tauto.
Defined.

(** ** How long the loop runs *)

Lemma flag_stays_unset (e : Env) (j : nat) :
  forall s,
    (forall i, i < j -> closing e (after_frames e i s) = false) ->
    should_close (after_frames e j s) = should_close s.
Proof.
  induction j as [|j IH]; intros s H.
  - reflexivity.
  - rewrite after_frames_S. simpl.
    rewrite (H j) by lia. rewrite orb_false_r.
    apply IH. intros i Hi. apply H. lia.
Qed.

Lemma frames_until_close (e : Env) (window : GLFWwindow) (fuel k : nat) :
  (forall j, j < k -> frame_closes e j = false) ->
  frame_closes e k = true ->
  k + 2 <= fuel ->
  frames_run e fuel (at_loop_entry e window) = S k.
Proof.
  intros Hopen Hclose Hfuel.
  set (s := at_loop_entry e window).
  assert (Hflag : should_close (after_frames e (S k) s) = true).
  { apply closing_sets_flag. subst s. rewrite closing_at_loop_entry.
    exact Hclose. }
  pose proof (frames_run_stops e fuel s (S k) Hflag ltac:(lia)) as Hle.
  assert (Hlt : frames_run e fuel s < fuel) by lia.
  pose proof (frames_run_closed e fuel s Hlt) as Hset.
  destruct (Nat.eq_dec (frames_run e fuel s) (S k)) as [-> | Hne];
    [reflexivity|].
  exfalso.
  rewrite (flag_stays_unset e (frames_run e fuel s) s) in Hset.
  - discriminate.
  - intros i Hi. subst s. rewrite closing_at_loop_entry.
    apply Hopen. lia.
Qed.

Lemma frames_without_close (e : Env) (window : GLFWwindow) (fuel : nat) :
  (forall j, frame_closes e j = false) ->
  frames_run e fuel (at_loop_entry e window) = fuel.
Proof.
  intro Hopen.
  set (s := at_loop_entry e window).
  pose proof (frames_run_le e fuel s) as Hle.
  destruct (Nat.eq_dec (frames_run e fuel s) fuel) as [Heq | Hne];
    [exact Heq|].
  exfalso.
  assert (Hlt : frames_run e fuel s < fuel) by lia.
  pose proof (frames_run_closed e fuel s Hlt) as Hset.
  rewrite (flag_stays_unset e (frames_run e fuel s) s) in Hset.
  - discriminate.
  - intros i _. subst s. rewrite closing_at_loop_entry. apply Hopen.
Qed.

(** X11: the loop draws exactly up to the frame that closes.  In a run
    that got past the startup checks, if frame [k] is the first in which
    the escape key is found pressed or a close request is queued, and the
    loop is given at least [k + 2] evaluations of its condition, then the
    run returns 0 after drawing exactly [k + 1] frames: none is skipped
    and none is drawn after the closing one. *)
Theorem X11_frames_until_close
  (fuel : nat) (e : Env) (window : GLFWwindow) (k : nat) :
  env_window e = Some window ->
  env_glad e <> 0%Z ->
  (forall j, j < k -> frame_closes e j = false) ->
  frame_closes e k = true ->
  k + 2 <= fuel ->
  result (run fuel e) = Some 0%Z /\
  key_calls (final (run fuel e)) = S k /\
  trace (run fuel e) =
  startup_calls ++ context_calls window ++ setup_calls e ++
  concat (map (iteration_calls window (env_shaderProgram e) (env_VAO e) e)
              (seq 0 (S k))) ++
  GlfwWindowShouldClose window :: shutdown_calls e.
Proof.
  intros Hw Hg Hopen Hclose Hfuel.
  rewrite (run_rendering fuel e window Hw Hg). cbv zeta.
  rewrite (frames_until_close e window fuel k Hopen Hclose Hfuel).
  unfold result, final, trace, fst, snd.
  destruct (Nat.ltb_spec (S k) fuel) as [_ | Hge]; [|lia].
  split; [reflexivity|]. split.
  - cbn [set_live key_calls]. rewrite after_frames_key_calls. simpl. lia.
  - rewrite (iterations_indexed window (env_shaderProgram e) (env_VAO e) e
               (S k) (at_loop_entry e window) 0) by reflexivity.
    reflexivity.
Qed.

Lemma X11_witness :
  (env_window example_env = Some 7%N /\
   env_glad example_env <> 0%Z /\
   (forall j, j < 1 -> frame_closes example_env j = false) /\
   frame_closes example_env 1 = true /\
   1 + 2 <= 5) /\
  result (run 5 example_env) = Some 0%Z /\
  key_calls (final (run 5 example_env)) = 2.
Proof.
  assert (Hopen : forall j, j < 1 -> frame_closes example_env j = false).
  { intros j Hj. assert (j = 0) as -> by lia. reflexivity. }
  split.
  - split; [reflexivity|]. split; [simpl; lia|]. split; [exact Hopen|].
    split; [reflexivity | lia].
  - destruct (X11_frames_until_close 5 example_env 7%N 1
                eq_refl ltac:(simpl; lia) Hopen eq_refl ltac:(lia))
      as (Hres & Hkeys & _).
    split; [exact Hres | exact Hkeys].
Defined.

(** X12: the loop has no other way out.  In a run that got past the
    startup checks, if the escape key is never found pressed and no close
    request is ever queued, the loop never exits: however many
    evaluations of its condition it is given, it uses them all, draws a
    frame after each, and the run has not returned nor terminated the
    windowing library. *)
Theorem X12_loop_runs_while_open
  (fuel : nat) (e : Env) (window : GLFWwindow) :
  env_window e = Some window ->
  env_glad e <> 0%Z ->
  (forall j, frame_closes e j = false) ->
  result (run fuel e) = None /\
  key_calls (final (run fuel e)) = fuel /\
  should_close (final (run fuel e)) = false /\
  trace (run fuel e) =
  startup_calls ++ context_calls window ++ setup_calls e ++
  concat (map (iteration_calls window (env_shaderProgram e) (env_VAO e) e)
              (seq 0 fuel)).
Proof.
  intros Hw Hg Hopen.
  rewrite (run_rendering fuel e window Hw Hg). cbv zeta.
  rewrite (frames_without_close e window fuel Hopen).
  unfold result, final, trace, fst, snd.
  rewrite Nat.ltb_irrefl.
  split; [reflexivity|]. split; [|split].
  - rewrite after_frames_key_calls. simpl. lia.
  - rewrite flag_stays_unset; [reflexivity|].
    intros i _. rewrite closing_at_loop_entry. apply Hopen.
  - rewrite (iterations_indexed window (env_shaderProgram e) (env_VAO e) e
               fuel (at_loop_entry e window) 0) by reflexivity.
    rewrite app_nil_r. reflexivity.
Qed.

Lemma X12_witness :
  (env_window idle_env = Some 7%N /\
   env_glad idle_env <> 0%Z /\
   (forall j, frame_closes idle_env j = false)) /\
  result (run 4 idle_env) = None /\
  key_calls (final (run 4 idle_env)) = 4.
Proof.
  assert (Hopen : forall j, frame_closes idle_env j = false).
  { intro j. reflexivity. }
  split.
  - split; [reflexivity|]. split; [simpl; lia | exact Hopen].
  - destruct (X12_loop_runs_while_open 4 idle_env 7%N
                eq_refl ltac:(simpl; lia) Hopen)
      as (Hres & Hkeys & _).
    split; [exact Hres | exact Hkeys].
Defined.

(** ** From the sources to the program in use *)

